(** * Bill extractor: the reconciliation pipeline of [main.py]

    A shallow embedding of the [/extract-bill-data] endpoint.  The raw tree
    returned by [json.loads] is a [json] value, Python floats are binary64
    floats, exceptions are values of [exn] threaded through the [result]
    monad, and the two loops of the handler are folds over the state they
    mutate ([all_items], [pagewise_items], [p_items]). *)

From Stdlib Require Import ZArith String Ascii List Floats DecimalString Lia.
From stdpp Require Import gmap strings list fin_maps.

Open Scope string_scope.
Open Scope Z_scope.

(** ** The Python runtime, as far as [main.py] uses it *)

Module Py.

(** What [json.loads] returns: [None], [bool], [int], [float], [str],
    [list] and [dict] with text keys. *)
#[warnings="-register-all"]
Inductive json :=
| JNull
| JBool (b : bool)
| JInt (n : Z)
| JFloat (f : float)
| JStr (s : string)
| JList (l : list json)
| JObj (m : gmap string json).

(** [type(v).__name__] *)
Definition type_name (v : json) : string :=
  match v with
  | JNull => "NoneType"
  | JBool _ => "bool"
  | JInt _ => "int"
  | JFloat _ => "float"
  | JStr _ => "str"
  | JList _ => "list"
  | JObj _ => "dict"
  end.

(** The exceptions the handler can meet.  [HTTPException] is FastAPI's,
    [ValidationError] is pydantic's; the others are built in.  The built-in
    ones carry their message, which is what [str(e)] returns. *)
Inductive exn :=
| HTTPException (status_code : Z) (detail : string)
| AttributeError (msg : string)
| TypeError (msg : string)
| ValueError (msg : string)
| OverflowError (msg : string)
| ValidationError (msg : string).

Inductive result (A : Type) :=
| Ok (a : A)
| Raise (e : exn).
Arguments Ok {A} a.
Arguments Raise {A} e.

#[export] Instance result_ret : MRet result := fun A a => Ok a.
#[export] Instance result_bind : MBind result := fun A B f r =>
  match r with
  | Ok a => f a
  | Raise e => Raise e
  end.

(** A [for] loop whose body updates the state [s] and may raise. *)
Fixpoint for_each {S X : Type} (body : S -> X -> result S)
    (xs : list X) (s : S) : result S :=
  match xs with
  | [] => Ok s
  | x :: rest => s' ← body s x; for_each body rest s'
  end.

(** [v.get(key, dflt)]: only a [dict] has the attribute. *)
Definition get (v : json) (key : string) (dflt : json) : result json :=
  match v with
  | JObj m => Ok (default dflt (m !! key))
  | _ => Raise (AttributeError
                  ("'" ++ type_name v ++ "' object has no attribute 'get'"))
  end.

(** The sequence a [for] loop walks: the elements of a [list], the
    characters of a [str] (each a one-character [str]; a character is a
    byte of the string here), the keys of a [dict] (a finite map keeps no
    insertion order; each key is a [str] whatever the order).  Anything else
    is not iterable. *)
Definition iter (v : json) : result (list json) :=
  match v with
  | JList l => Ok l
  | JStr s => Ok ((λ c, JStr (String c EmptyString)) <$> list_ascii_of_string s)
  | JObj m => Ok ((λ kv, JStr kv.1) <$> map_to_list m)
  | _ => Raise (TypeError ("'" ++ type_name v ++ "' object is not iterable"))
  end.

(** *** Floats *)

(** The double nearest to the ratio [n / d] (ties to even), with the sign
    [neg]: IEEE division carried out on the exact integers.  It gives an
    infinity when the ratio is beyond the largest double. *)
Definition ratio_to_float (neg : bool) (n d : positive) : float :=
  SF2Prim (SFdiv prec emax (S754_finite neg n 0) (S754_finite false d 0)).

Definition signed_zero (neg : bool) : float :=
  if neg then neg_zero else zero.

(** [float(n)] for an [int]: the nearest double, or [OverflowError]. *)
Definition float_of_int (n : Z) : result float :=
  match binary_normalize prec emax n 0 false with
  | S754_infinity _ => Raise (OverflowError "int too large to convert to float")
  | sf => Ok (SF2Prim sf)
  end.

(** *** [float(s)] for a [str]

    The text is accepted when, underscores between digits removed and
    white space at both ends stripped, it is an optional sign followed by
    [inf], [infinity] or [nan] in any letter case, or by a decimal number
    with an optional exponent.  The value is the double nearest to the
    decimal number.  A text with a character outside ASCII is first
    rewritten: each such white space becomes a space and each such decimal
    digit its ASCII digit.  A [string] holds the UTF-8 bytes of the text;
    the tables are those of Unicode 14 (CPython 3.11). *)

Definition code (c : ascii) : nat := nat_of_ascii c.

(** White space of the C locale, which is what is stripped at both ends. *)
Definition is_space (c : ascii) : bool :=
  ((code c =? 32) || ((9 <=? code c) && (code c <=? 13)))%nat.

(** The characters of a text, each with its code point and its bytes.  A
    byte that begins no well-formed sequence stands for itself. *)
Definition continuation (c : ascii) : bool :=
  ((128 <=? code c) && (code c <? 192))%nat.

Definition tail_bits (c : ascii) : N := N.of_nat (code c) - 128.

Fixpoint utf8_chars (l : list ascii) : list (N * list ascii) :=
  match l with
  | [] => []
  | b0 :: rest =>
      let n0 := N.of_nat (code b0) in
      let alone := (n0, [b0]) :: utf8_chars rest in
      if (n0 <? 192)%N then alone
      else
        match rest with
        | b1 :: rest1 =>
            if (n0 <? 224)%N then
              if continuation b1
              then ((n0 - 192) * 64 + tail_bits b1, [b0; b1])%N
                   :: utf8_chars rest1
              else alone
            else
              match rest1 with
              | b2 :: rest2 =>
                  if (n0 <? 240)%N then
                    if continuation b1 && continuation b2
                    then (((n0 - 224) * 64 + tail_bits b1) * 64 + tail_bits b2,
                          [b0; b1; b2])%N :: utf8_chars rest2
                    else alone
                  else
                    match rest2 with
                    | b3 :: rest3 =>
                        if (n0 <? 248)%N && continuation b1
                           && continuation b2 && continuation b3
                        then
                          ((((n0 - 240) * 64 + tail_bits b1) * 64
                            + tail_bits b2) * 64 + tail_bits b3,
                           [b0; b1; b2; b3])%N :: utf8_chars rest3
                        else alone
                    | [] => alone
                    end
              | [] => alone
              end
        | [] => alone
        end
  end.

(** White space from code point 127 on. *)
Definition unicode_is_space (cp : N) : bool :=
  ((cp =? 133) || (cp =? 160) || (cp =? 5760)
   || ((8192 <=? cp) && (cp <=? 8202))
   || (cp =? 8232) || (cp =? 8233) || (cp =? 8239) || (cp =? 8287)
   || (cp =? 12288))%N.

(** The code points of the digit zero of each script; the nine that follow
    each are its digits one to nine. *)
Definition decimal_zeros : list N :=
  [1632; 1776; 1984; 2406; 2534; 2662; 2790; 2918; 3046;
   3174; 3302; 3430; 3558; 3664; 3792; 3872; 4160; 4240;
   6112; 6160; 6470; 6608; 6784; 6800; 6992; 7088; 7232;
   7248; 42528; 43216; 43264; 43472; 43504; 43600; 44016; 65296;
   66720; 68912; 69734; 69872; 69942; 70096; 70384; 70736; 70864;
   71248; 71360; 71472; 71904; 72016; 72784; 73040; 73120; 92768;
   92864; 93008; 120782; 120792; 120802; 120812; 120822; 123200; 123632;
   125264; 130032]%N.

Definition unicode_decimal (cp : N) : option N :=
  (λ zero, cp - zero)%N
  <$> find (λ zero, (zero <=? cp) && (cp <? zero + 10))%N decimal_zeros.

(** The rewriting stops with a question mark at the first character that
    is neither, which no number contains. *)
Fixpoint to_ascii (chars : list (N * list ascii)) : list ascii :=
  match chars with
  | [] => []
  | (cp, _) :: rest =>
      if (cp <? 127)%N then ascii_of_N cp :: to_ascii rest
      else if unicode_is_space cp then " "%char :: to_ascii rest
      else match unicode_decimal cp with
           | Some d => ascii_of_N (48 + d) :: to_ascii rest
           | None => ["?"%char]
           end
  end.

Definition is_ascii (l : list ascii) : bool :=
  forallb (λ c, (code c <? 128)%nat) l.

Definition decimal_and_space_to_ascii (l : list ascii) : list ascii :=
  if is_ascii l then l else to_ascii (utf8_chars l).

Definition is_digit (c : ascii) : bool :=
  ((48 <=? code c) && (code c <=? 57))%nat.

Definition digit_value (c : ascii) : Z := Z.of_nat (code c) - 48.

Definition lower (c : ascii) : ascii :=
  if ((65 <=? code c) && (code c <=? 90))%nat
  then ascii_of_nat (code c + 32) else c.

Fixpoint drop_while (p : ascii -> bool) (l : list ascii) : list ascii :=
  match l with
  | c :: rest => if p c then drop_while p rest else l
  | [] => []
  end.

Fixpoint span (p : ascii -> bool) (l : list ascii) : list ascii * list ascii :=
  match l with
  | c :: rest =>
      if p c then let '(yes, no) := span p rest in (c :: yes, no) else ([], l)
  | [] => ([], [])
  end.

Definition strip (l : list ascii) : list ascii :=
  rev (drop_while is_space (rev (drop_while is_space l))).

(** An underscore must stand between two digits. *)
Fixpoint drop_underscores (prev : option ascii) (l : list ascii)
    : option (list ascii) :=
  match l with
  | [] => Some []
  | c :: rest =>
      if (c =? "_")%char then
        match prev, rest with
        | Some p, n :: _ =>
            if is_digit p && is_digit n
            then drop_underscores (Some c) rest else None
        | _, _ => None
        end
      else cons c <$> drop_underscores (Some c) rest
  end.

Definition take_sign (l : list ascii) : bool * list ascii :=
  match l with
  | c :: rest =>
      if (c =? "-")%char then (true, rest)
      else if (c =? "+")%char then (false, rest)
      else (false, l)
  | [] => (false, [])
  end.

Definition digits_value (ds : list ascii) : Z :=
  fold_left (λ acc c, 10 * acc + digit_value c) ds 0.

(** What follows the mantissa: nothing, or [e]/[E], an optional sign and
    at least one digit, up to the end of the text. *)
Definition parse_exponent (l : list ascii) : option Z :=
  match l with
  | [] => Some 0
  | c :: rest =>
      if (lower c =? "e")%char then
        let '(neg, rest') := take_sign rest in
        match span is_digit rest' with
        | ((_ :: _) as ds, []) =>
            Some (if neg then - digits_value ds else digits_value ds)
        | _ => None
        end
      else None
  end.

(** [digits] and [exponent] with the number equal to
    [digits * 10 ^ exponent]. *)
Definition parse_decimal (l : list ascii) : option (Z * Z) :=
  let '(int_part, after_int) := span is_digit l in
  let '(frac_part, after_frac) :=
    match after_int with
    | c :: rest => if (c =? ".")%char then span is_digit rest else ([], after_int)
    | [] => ([], [])
    end in
  match (int_part ++ frac_part)%list with
  | [] => None
  | ds =>
      e ← parse_exponent after_frac;
      Some (digits_value ds, e - Z.of_nat (length frac_part))
  end.

Definition decimal_to_float (neg : bool) (digits exponent : Z) : float :=
  match digits with
  | Zpos m =>
      match exponent with
      | Z0 => ratio_to_float neg m 1
      | Zpos e => ratio_to_float neg (m * 10 ^ e) 1
      | Zneg e => ratio_to_float neg m (10 ^ e)
      end
  | _ => signed_zero neg
  end.

Definition float_of_string (s : string) : option float :=
  l ← drop_underscores None
        (decimal_and_space_to_ascii (list_ascii_of_string s));
  let '(neg, body) := take_sign (strip l) in
  let word := string_of_list_ascii (lower <$> body) in
  if (word =? "inf")%string || (word =? "infinity")%string
  then Some (if neg then neg_infinity else infinity)
  else if (word =? "nan")%string then Some nan
  else '(digits, exponent) ← parse_decimal body;
       Some (decimal_to_float neg digits exponent).

(** [repr(s)] of a [str]: single quotes unless the text has a single quote
    and no double quote; the quote and the backslash escaped, tab, newline
    and carriage return by letter, the other control characters of ASCII in
    hexadecimal.  A character outside ASCII is kept when it is printable
    and otherwise written with two, four or eight hexadecimal digits. *)
Definition backslash : ascii := ascii_of_nat 92.
Definition double_quote : ascii := ascii_of_nat 34.

Definition hex_digit (n : nat) : ascii :=
  nth n (list_ascii_of_string "0123456789abcdef") "0"%char.

(** The [width] lowest hexadecimal digits of [n], highest first. *)
Fixpoint hex (width : nat) (n : N) : list ascii :=
  match width with
  | O => []
  | S w => (hex w (n / 16) ++ [hex_digit (N.to_nat (n mod 16))])%list
  end.

(** The ranges of code points from 128 on that are not printable. *)
Definition not_printable_ranges : list (N * N) :=
  [(128, 160); (173, 173); (888, 889); (896, 899); (907, 907);
   (909, 909); (930, 930); (1328, 1328); (1367, 1368); (1419, 1420);
   (1424, 1424); (1480, 1487); (1515, 1518); (1525, 1541); (1564, 1564);
   (1757, 1757); (1806, 1807); (1867, 1868); (1970, 1983); (2043, 2044);
   (2094, 2095); (2111, 2111); (2140, 2141); (2143, 2143); (2155, 2159);
   (2191, 2199); (2274, 2274); (2436, 2436); (2445, 2446); (2449, 2450);
   (2473, 2473); (2481, 2481); (2483, 2485); (2490, 2491); (2501, 2502);
   (2505, 2506); (2511, 2518); (2520, 2523); (2526, 2526); (2532, 2533);
   (2559, 2560); (2564, 2564); (2571, 2574); (2577, 2578); (2601, 2601);
   (2609, 2609); (2612, 2612); (2615, 2615); (2618, 2619); (2621, 2621);
   (2627, 2630); (2633, 2634); (2638, 2640); (2642, 2648); (2653, 2653);
   (2655, 2661); (2679, 2688); (2692, 2692); (2702, 2702); (2706, 2706);
   (2729, 2729); (2737, 2737); (2740, 2740); (2746, 2747); (2758, 2758);
   (2762, 2762); (2766, 2767); (2769, 2783); (2788, 2789); (2802, 2808);
   (2816, 2816); (2820, 2820); (2829, 2830); (2833, 2834); (2857, 2857);
   (2865, 2865); (2868, 2868); (2874, 2875); (2885, 2886); (2889, 2890);
   (2894, 2900); (2904, 2907); (2910, 2910); (2916, 2917); (2936, 2945);
   (2948, 2948); (2955, 2957); (2961, 2961); (2966, 2968); (2971, 2971);
   (2973, 2973); (2976, 2978); (2981, 2983); (2987, 2989); (3002, 3005);
   (3011, 3013); (3017, 3017); (3022, 3023); (3025, 3030); (3032, 3045);
   (3067, 3071); (3085, 3085); (3089, 3089); (3113, 3113); (3130, 3131);
   (3141, 3141); (3145, 3145); (3150, 3156); (3159, 3159); (3163, 3164);
   (3166, 3167); (3172, 3173); (3184, 3190); (3213, 3213); (3217, 3217);
   (3241, 3241); (3252, 3252); (3258, 3259); (3269, 3269); (3273, 3273);
   (3278, 3284); (3287, 3292); (3295, 3295); (3300, 3301); (3312, 3312);
   (3315, 3327); (3341, 3341); (3345, 3345); (3397, 3397); (3401, 3401);
   (3408, 3411); (3428, 3429); (3456, 3456); (3460, 3460); (3479, 3481);
   (3506, 3506); (3516, 3516); (3518, 3519); (3527, 3529); (3531, 3534);
   (3541, 3541); (3543, 3543); (3552, 3557); (3568, 3569); (3573, 3584);
   (3643, 3646); (3676, 3712); (3715, 3715); (3717, 3717); (3723, 3723);
   (3748, 3748); (3750, 3750); (3774, 3775); (3781, 3781); (3783, 3783);
   (3790, 3791); (3802, 3803); (3808, 3839); (3912, 3912); (3949, 3952);
   (3992, 3992); (4029, 4029); (4045, 4045); (4059, 4095); (4294, 4294);
   (4296, 4300); (4302, 4303); (4681, 4681); (4686, 4687); (4695, 4695);
   (4697, 4697); (4702, 4703); (4745, 4745); (4750, 4751); (4785, 4785);
   (4790, 4791); (4799, 4799); (4801, 4801); (4806, 4807); (4823, 4823);
   (4881, 4881); (4886, 4887); (4955, 4956); (4989, 4991); (5018, 5023);
   (5110, 5111); (5118, 5119); (5760, 5760); (5789, 5791); (5881, 5887);
   (5910, 5918); (5943, 5951); (5972, 5983); (5997, 5997); (6001, 6001);
   (6004, 6015); (6110, 6111); (6122, 6127); (6138, 6143); (6158, 6158);
   (6170, 6175); (6265, 6271); (6315, 6319); (6390, 6399); (6431, 6431);
   (6444, 6447); (6460, 6463); (6465, 6467); (6510, 6511); (6517, 6527);
   (6572, 6575); (6602, 6607); (6619, 6621); (6684, 6685); (6751, 6751);
   (6781, 6782); (6794, 6799); (6810, 6815); (6830, 6831); (6863, 6911);
   (6989, 6991); (7039, 7039); (7156, 7163); (7224, 7226); (7242, 7244);
   (7305, 7311); (7355, 7356); (7368, 7375); (7419, 7423); (7958, 7959);
   (7966, 7967); (8006, 8007); (8014, 8015); (8024, 8024); (8026, 8026);
   (8028, 8028); (8030, 8030); (8062, 8063); (8117, 8117); (8133, 8133);
   (8148, 8149); (8156, 8156); (8176, 8177); (8181, 8181); (8191, 8207);
   (8232, 8239); (8287, 8303); (8306, 8307); (8335, 8335); (8349, 8351);
   (8385, 8399); (8433, 8447); (8588, 8591); (9255, 9279); (9291, 9311);
   (11124, 11125); (11158, 11158); (11508, 11512); (11558, 11558); (11560, 11564);
   (11566, 11567); (11624, 11630); (11633, 11646); (11671, 11679); (11687, 11687);
   (11695, 11695); (11703, 11703); (11711, 11711); (11719, 11719); (11727, 11727);
   (11735, 11735); (11743, 11743); (11870, 11903); (11930, 11930); (12020, 12031);
   (12246, 12271); (12284, 12288); (12352, 12352); (12439, 12440); (12544, 12548);
   (12592, 12592); (12687, 12687); (12772, 12783); (12831, 12831); (42125, 42127);
   (42183, 42191); (42540, 42559); (42744, 42751); (42955, 42959); (42962, 42962);
   (42964, 42964); (42970, 42993); (43053, 43055); (43066, 43071); (43128, 43135);
   (43206, 43213); (43226, 43231); (43348, 43358); (43389, 43391); (43470, 43470);
   (43482, 43485); (43519, 43519); (43575, 43583); (43598, 43599); (43610, 43611);
   (43715, 43738); (43767, 43776); (43783, 43784); (43791, 43792); (43799, 43807);
   (43815, 43815); (43823, 43823); (43884, 43887); (44014, 44015); (44026, 44031);
   (55204, 55215); (55239, 55242); (55292, 63743); (64110, 64111); (64218, 64255);
   (64263, 64274); (64280, 64284); (64311, 64311); (64317, 64317); (64319, 64319);
   (64322, 64322); (64325, 64325); (64451, 64466); (64912, 64913); (64968, 64974);
   (64976, 65007); (65050, 65055); (65107, 65107); (65127, 65127); (65132, 65135);
   (65141, 65141); (65277, 65280); (65471, 65473); (65480, 65481); (65488, 65489);
   (65496, 65497); (65501, 65503); (65511, 65511); (65519, 65531); (65534, 65535);
   (65548, 65548); (65575, 65575); (65595, 65595); (65598, 65598); (65614, 65615);
   (65630, 65663); (65787, 65791); (65795, 65798); (65844, 65846); (65935, 65935);
   (65949, 65951); (65953, 65999); (66046, 66175); (66205, 66207); (66257, 66271);
   (66300, 66303); (66340, 66348); (66379, 66383); (66427, 66431); (66462, 66462);
   (66500, 66503); (66518, 66559); (66718, 66719); (66730, 66735); (66772, 66775);
   (66812, 66815); (66856, 66863); (66916, 66926); (66939, 66939); (66955, 66955);
   (66963, 66963); (66966, 66966); (66978, 66978); (66994, 66994); (67002, 67002);
   (67005, 67071); (67383, 67391); (67414, 67423); (67432, 67455); (67462, 67462);
   (67505, 67505); (67515, 67583); (67590, 67591); (67593, 67593); (67638, 67638);
   (67641, 67643); (67645, 67646); (67670, 67670); (67743, 67750); (67760, 67807);
   (67827, 67827); (67830, 67834); (67868, 67870); (67898, 67902); (67904, 67967);
   (68024, 68027); (68048, 68049); (68100, 68100); (68103, 68107); (68116, 68116);
   (68120, 68120); (68150, 68151); (68155, 68158); (68169, 68175); (68185, 68191);
   (68256, 68287); (68327, 68330); (68343, 68351); (68406, 68408); (68438, 68439);
   (68467, 68471); (68498, 68504); (68509, 68520); (68528, 68607); (68681, 68735);
   (68787, 68799); (68851, 68857); (68904, 68911); (68922, 69215); (69247, 69247);
   (69290, 69290); (69294, 69295); (69298, 69375); (69416, 69423); (69466, 69487);
   (69514, 69551); (69580, 69599); (69623, 69631); (69710, 69713); (69750, 69758);
   (69821, 69821); (69827, 69839); (69865, 69871); (69882, 69887); (69941, 69941);
   (69960, 69967); (70007, 70015); (70112, 70112); (70133, 70143); (70162, 70162);
   (70207, 70271); (70279, 70279); (70281, 70281); (70286, 70286); (70302, 70302);
   (70314, 70319); (70379, 70383); (70394, 70399); (70404, 70404); (70413, 70414);
   (70417, 70418); (70441, 70441); (70449, 70449); (70452, 70452); (70458, 70458);
   (70469, 70470); (70473, 70474); (70478, 70479); (70481, 70486); (70488, 70492);
   (70500, 70501); (70509, 70511); (70517, 70655); (70748, 70748); (70754, 70783);
   (70856, 70863); (70874, 71039); (71094, 71095); (71134, 71167); (71237, 71247);
   (71258, 71263); (71277, 71295); (71354, 71359); (71370, 71423); (71451, 71452);
   (71468, 71471); (71495, 71679); (71740, 71839); (71923, 71934); (71943, 71944);
   (71946, 71947); (71956, 71956); (71959, 71959); (71990, 71990); (71993, 71994);
   (72007, 72015); (72026, 72095); (72104, 72105); (72152, 72153); (72165, 72191);
   (72264, 72271); (72355, 72367); (72441, 72703); (72713, 72713); (72759, 72759);
   (72774, 72783); (72813, 72815); (72848, 72849); (72872, 72872); (72887, 72959);
   (72967, 72967); (72970, 72970); (73015, 73017); (73019, 73019); (73022, 73022);
   (73032, 73039); (73050, 73055); (73062, 73062); (73065, 73065); (73103, 73103);
   (73106, 73106); (73113, 73119); (73130, 73439); (73465, 73647); (73649, 73663);
   (73714, 73726); (74650, 74751); (74863, 74863); (74869, 74879); (75076, 77711);
   (77811, 77823); (78895, 82943); (83527, 92159); (92729, 92735); (92767, 92767);
   (92778, 92781); (92863, 92863); (92874, 92879); (92910, 92911); (92918, 92927);
   (92998, 93007); (93018, 93018); (93026, 93026); (93048, 93052); (93072, 93759);
   (93851, 93951); (94027, 94030); (94088, 94094); (94112, 94175); (94181, 94191);
   (94194, 94207); (100344, 100351); (101590, 101631); (101641, 110575); (110580, 110580);
   (110588, 110588); (110591, 110591); (110883, 110927); (110931, 110947); (110952, 110959);
   (111356, 113663); (113771, 113775); (113789, 113791); (113801, 113807); (113818, 113819);
   (113824, 118527); (118574, 118575); (118599, 118607); (118724, 118783); (119030, 119039);
   (119079, 119080); (119155, 119162); (119275, 119295); (119366, 119519); (119540, 119551);
   (119639, 119647); (119673, 119807); (119893, 119893); (119965, 119965); (119968, 119969);
   (119971, 119972); (119975, 119976); (119981, 119981); (119994, 119994); (119996, 119996);
   (120004, 120004); (120070, 120070); (120075, 120076); (120085, 120085); (120093, 120093);
   (120122, 120122); (120127, 120127); (120133, 120133); (120135, 120137); (120145, 120145);
   (120486, 120487); (120780, 120781); (121484, 121498); (121504, 121504); (121520, 122623);
   (122655, 122879); (122887, 122887); (122905, 122906); (122914, 122914); (122917, 122917);
   (122923, 123135); (123181, 123183); (123198, 123199); (123210, 123213); (123216, 123535);
   (123567, 123583); (123642, 123646); (123648, 124895); (124903, 124903); (124908, 124908);
   (124911, 124911); (124927, 124927); (125125, 125126); (125143, 125183); (125260, 125263);
   (125274, 125277); (125280, 126064); (126133, 126208); (126270, 126463); (126468, 126468);
   (126496, 126496); (126499, 126499); (126501, 126502); (126504, 126504); (126515, 126515);
   (126520, 126520); (126522, 126522); (126524, 126529); (126531, 126534); (126536, 126536);
   (126538, 126538); (126540, 126540); (126544, 126544); (126547, 126547); (126549, 126550);
   (126552, 126552); (126554, 126554); (126556, 126556); (126558, 126558); (126560, 126560);
   (126563, 126563); (126565, 126566); (126571, 126571); (126579, 126579); (126584, 126584);
   (126589, 126589); (126591, 126591); (126602, 126602); (126620, 126624); (126628, 126628);
   (126634, 126634); (126652, 126703); (126706, 126975); (127020, 127023); (127124, 127135);
   (127151, 127152); (127168, 127168); (127184, 127184); (127222, 127231); (127406, 127461);
   (127491, 127503); (127548, 127551); (127561, 127567); (127570, 127583); (127590, 127743);
   (128728, 128732); (128749, 128751); (128765, 128767); (128884, 128895); (128985, 128991);
   (129004, 129007); (129009, 129023); (129036, 129039); (129096, 129103); (129114, 129119);
   (129160, 129167); (129198, 129199); (129202, 129279); (129620, 129631); (129646, 129647);
   (129653, 129655); (129661, 129663); (129671, 129679); (129709, 129711); (129723, 129727);
   (129734, 129743); (129754, 129759); (129768, 129775); (129783, 129791); (129939, 129939);
   (129995, 130031); (130042, 131071); (173792, 173823); (177977, 177983); (178206, 178207);
   (183970, 183983); (191457, 194559); (195102, 196607); (201547, 917759); (918000, 1114111)]%N.

Definition unicode_is_printable (cp : N) : bool :=
  negb (existsb (λ r, (r.1 <=? cp) && (cp <=? r.2))%N not_printable_ranges).

Definition repr_char (quote : ascii) (char : N * list ascii) : list ascii :=
  let cp := char.1 in
  if (cp =? N.of_nat (code quote))%N || (cp =? 92)%N
  then [backslash; ascii_of_N cp]
  else if (cp =? 9)%N then [backslash; "t"%char]
  else if (cp =? 10)%N then [backslash; "n"%char]
  else if (cp =? 13)%N then [backslash; "r"%char]
  else if ((cp <? 32) || (cp =? 127))%N
  then (backslash :: "x"%char :: hex 2 cp)
  else if (cp <? 127)%N then [ascii_of_N cp]
  else if unicode_is_printable cp then char.2
  else if (cp <=? 255)%N then (backslash :: "x"%char :: hex 2 cp)
  else if (cp <=? 65535)%N then (backslash :: "u"%char :: hex 4 cp)
  else (backslash :: "U"%char :: hex 8 cp).

Definition repr_str (s : string) : string :=
  let l := list_ascii_of_string s in
  let quote :=
    if existsb (λ c, (c =? "'")%char) l
       && negb (existsb (λ c, (c =? double_quote)%char) l)
    then double_quote else "'"%char in
  string_of_list_ascii
    (quote :: flat_map (repr_char quote) (utf8_chars l) ++ [quote])%list.

(** [float(v)] *)
Definition float (v : json) : result PrimFloat.float :=
  match v with
  | JFloat f => Ok f
  | JInt n => float_of_int n
  | JBool b => Ok (if b then one else zero)
  | JStr s =>
      match float_of_string s with
      | Some f => Ok f
      | None => Raise (ValueError
                         ("could not convert string to float: " ++ repr_str s))
      end
  | _ => Raise (TypeError
                  ("float() argument must be a string or a real number, not '"
                   ++ type_name v ++ "'"))
  end.

(** [sum(xs)] of floats: from the start value [0], left to right, each
    addition rounded (CPython from 3.12 on carries a compensation term
    along; the statements below hold of either, the sum being the same
    function on both sides of them). *)
Definition sum (xs : list PrimFloat.float) : PrimFloat.float :=
  fold_left PrimFloat.add xs zero.

(** The integer nearest to [n / d] for [d > 0], a tie going to the even
    one. *)
Definition round_half_even (n d : Z) : Z :=
  match 2 * (n mod d) ?= d with
  | Lt => n / d
  | Gt => n / d + 1
  | Eq => if Z.even (n / d) then n / d else n / d + 1
  end.

(** The double nearest to [cents / 100], with the sign [neg]. *)
Definition cents_to_float (neg : bool) (cents : Z) : PrimFloat.float :=
  match cents with
  | Zpos c => ratio_to_float neg c 100
  | _ => signed_zero neg
  end.

(** [round(x, 2)]: a NaN or an infinity is returned as it is; a finite
    [x] of magnitude [m * 2 ^ e] goes to the decimal with two places
    nearest to its exact value, a tie going to the even last digit, and
    back to the nearest double.  With [e >= 0] the float is an integer and
    is its own rounding. *)
Definition round2 (x : PrimFloat.float) : PrimFloat.float :=
  match Prim2SF x with
  | S754_finite s m e =>
      if 0 <=? e then x
      else cents_to_float s (round_half_even (100 * Zpos m) (2 ^ (- e)))
  | _ => x
  end.

(** Text as [str(v)] returns it.  The text of a [str] is itself, and
    [None], the booleans and the integers have their usual spelling; the
    rendering of a float, a list or a dict is not unfolded and stays the
    symbolic [str(v)]. *)
#[warnings="-register-all"]
Inductive text :=
| Text (s : string)
| StrOf (v : json).

Definition str (v : json) : text :=
  match v with
  | JStr s => Text s
  | JNull => Text "None"
  | JBool b => Text (if b then "True" else "False")
  | JInt n => Text (NilZero.string_of_int (Z.to_int n))
  | _ => StrOf v
  end.

End Py.

(** ** [main.py] *)

Module Main.
Import Py.

(** *** The pydantic models *)

Record DocumentRequest := { document : string }.

Record BillItem := {
  item_name : string;
  item_amount : PrimFloat.float;
  item_rate : option PrimFloat.float;
  item_quantity : option PrimFloat.float
}.

Record PageLineItems := {
  page_no : text;
  bill_items : list BillItem
}.

Record ExtractionData := {
  pagewise_line_items : list PageLineItems;
  total_item_count : Z;
  reconciled_amount : PrimFloat.float
}.

Record APIResponse := {
  is_success : bool;
  data : option ExtractionData;
  error : option string
}.

Definition newline : string := String (ascii_of_nat 10) EmptyString.

(** [BillItem(item_name=..., item_amount=..., item_rate=...,
    item_quantity=...)] as the handler calls it: the three numbers are
    already floats, which the model takes as they are (NaN and the
    infinities included); [item_name: str] takes a [str] and nothing else
    (pydantic 2 does not turn a number into text).  The message is the
    summary of pydantic's report, without the bracketed detail that
    repeats the input. *)
Definition BillItem_init (name : json) (amount rate quantity : PrimFloat.float)
    : result BillItem :=
  match name with
  | JStr s => Ok {| item_name := s; item_amount := amount;
                    item_rate := Some rate; item_quantity := Some quantity |}
  | _ => Raise (ValidationError
                  ("1 validation error for BillItem" ++ newline ++
                   "item_name" ++ newline ++
                   "  Input should be a valid string"))
  end.

(** *** What lies outside the process: the HTTP fetch, the image decoder
    and the model call, each returning a value or throwing an exception
    of description [str(e)]. *)

Variant Image := Decoded (content : string).

Inductive outcome (A : Type) :=
| Returned (a : A)
| Threw (description : string).
Arguments Returned {A} a.
Arguments Threw {A} description.

Record World := {
  (** [requests.get(url, timeout=10)] followed by [raise_for_status()]:
      the body of a successful reply *)
  requests_get : string -> outcome string;
  (** [Image.open(BytesIO(content))] *)
  Image_open : string -> outcome Image;
  (** [model.generate_content(...)] followed by [json.loads] of its text *)
  generate_content : Image -> outcome json
}.

(** *** Helper functions *)

Definition download_image (w : World) (url : string) : result Image :=
  match requests_get w url with
  | Returned content =>
      match Image_open w content with
      | Returned img => Ok img
      | Threw e =>
          Raise (HTTPException 400 ("Failed to download image: " ++ e))
      end
  | Threw e => Raise (HTTPException 400 ("Failed to download image: " ++ e))
  end.

Definition get_gemini_extraction (w : World) (image : Image) : result json :=
  match generate_content w image with
  | Returned raw => Ok raw
  | Threw _ =>
      Raise (HTTPException 500 "Failed to process image with AI model.")
  end.

(** *** The endpoint *)

(** Lines 139-144, the [# Sanitize data] step: the four [get]s and the
    three [float] calls in the order Python evaluates them, then the model
    constructor. *)
Definition validated_item (item : json) : result BillItem :=
  name ← get item "item_name" (JStr "Unknown");
  amount_v ← get item "item_amount" (JInt 0);
  amount ← float amount_v;
  rate_v ← get item "item_rate" (JInt 0);
  rate ← float rate_v;
  quantity_v ← get item "item_quantity" (JInt 1);
  quantity ← float quantity_v;
  BillItem_init name amount rate quantity.

(** Body of the inner loop, on the state [(p_items, all_items)]. *)
Definition item_body (st : list BillItem * list BillItem) (item : json)
    : result (list BillItem * list BillItem) :=
  v ← validated_item item;
  mret (st.1 ++ [v], st.2 ++ [v])%list.

(** Body of the outer loop, on the state [(all_items, pagewise_items)]. *)
Definition page_body (st : list BillItem * list PageLineItems) (page : json)
    : result (list BillItem * list PageLineItems) :=
  items_v ← get page "bill_items" (JList []);
  items ← iter items_v;
  inner ← for_each item_body items ([], st.1);
  page_no_v ← get page "page_no" (JStr "1");
  mret (inner.2,
        (st.2 ++ [{| page_no := str page_no_v; bill_items := inner.1 |}])%list).

(** Step 3 of the handler: post-processing and reconciliation of the raw
    tree.  An empty [all_items] gives the integer [0] as sum and as
    rounding, which the [float] field of the model stores as [0.0]. *)
Definition reconcile (raw_data : json) : result ExtractionData :=
  pages_v ← get raw_data "pagewise_line_items" (JList []);
  pages ← iter pages_v;
  st ← for_each page_body pages ([], []);
  let all_items := st.1 in
  let pagewise_items := st.2 in
  let total_count := Z.of_nat (length all_items) in
  let calculated_total := sum (item_amount <$> all_items) in
  let calculated_total := round2 calculated_total in
  mret {| pagewise_line_items := pagewise_items;
          total_item_count := total_count;
          reconciled_amount := calculated_total |}.

(** [str(e)] *)
Definition str_exn (e : exn) : string :=
  match e with
  | HTTPException status_code detail =>
      NilZero.string_of_int (Z.to_int status_code) ++ ": " ++ detail
  | AttributeError msg | TypeError msg | ValueError msg
  | OverflowError msg | ValidationError msg => msg
  end.

Definition try_body (w : World) (request : DocumentRequest)
    : result ExtractionData :=
  image ← download_image w (document request);
  raw_data ← get_gemini_extraction w image;
  reconcile raw_data.

Definition extract_bill_data (w : World) (request : DocumentRequest)
    : APIResponse :=
  match try_body w request with
  | Ok response_data =>
      {| is_success := true; data := Some response_data; error := None |}
  | Raise (HTTPException _ detail) =>
      {| is_success := false; data := None; error := Some detail |}
  | Raise e =>
      {| is_success := false; data := None; error := Some (str_exn e) |}
  end.

End Main.

(** ** Vocabulary of the statements *)

Import Py Main.

(** The sequences the two loops walk. *)
Definition raw_pages (raw_data : json) : result (list json) :=
  pages_v ← get raw_data "pagewise_line_items" (JList []);
  iter pages_v.

Definition raw_items (page : json) : result (list json) :=
  items_v ← get page "bill_items" (JList []);
  iter items_v.

(** [item] is met by the inner loop on some page of [raw_data]. *)
Definition has_item (raw_data item : json) : Prop :=
  ∃ pages page items,
    raw_pages raw_data = Ok pages ∧ page ∈ pages ∧
    raw_items page = Ok items ∧ item ∈ items.

(** The page the outer loop appends for [page]. *)
Definition page_reads (page : json) (pg : PageLineItems) : Prop :=
  ∃ items page_no_v,
    raw_items page = Ok items ∧
    Forall2 (λ item v, validated_item item = Ok v) items (bill_items pg) ∧
    get page "page_no" (JStr "1") = Ok page_no_v ∧
    page_no pg = str page_no_v.

(** The flat list of the items of a response. *)
Definition items_of (d : ExtractionData) : list BillItem :=
  concat (bill_items <$> pagewise_line_items d).

(** The download and the model call went through and gave [raw_data]. *)
Definition extraction_returns (w : World) (request : DocumentRequest)
    (raw_data : json) : Prop :=
  ∃ image, download_image w (document request) = Ok image ∧
           get_gemini_extraction w image = Ok raw_data.

(** The exact value of the float [f] is the integer [n]. *)
Definition float_is_integer (f : PrimFloat.float) (n : Z) : Prop :=
  match Prim2SF f with
  | S754_zero _ => n = 0
  | S754_finite s m e =>
      (if s then - Z.pos m else Z.pos m) * 2 ^ Z.max e 0
      = n * 2 ^ Z.max (- e) 0
  | _ => False
  end.

(** A number of a well-formed tree: a float, or an integer of magnitude at
    most [2 ^ 53]. *)
Definition well_typed_number (v : json) : Prop :=
  match v with
  | JFloat _ => True
  | JInt n => Z.abs n <= 2 ^ 53
  | _ => False
  end.

(** The float [f] of the response is the number [v] of the tree: the same
    float, or the float whose exact value is the integer. *)
Definition same_number (v : json) (f : PrimFloat.float) : Prop :=
  match v with
  | JFloat g => f = g
  | JInt n => float_is_integer f n
  | _ => False
  end.

(** A tree that is already in the shape of the response: every value the
    handler reads is present and of the type of its field. *)
Definition well_typed_item (item : json) : Prop :=
  ∃ m s amount rate quantity,
    item = JObj m ∧
    m !! "item_name" = Some (JStr s) ∧
    m !! "item_amount" = Some amount ∧ well_typed_number amount ∧
    m !! "item_rate" = Some rate ∧ well_typed_number rate ∧
    m !! "item_quantity" = Some quantity ∧ well_typed_number quantity.

Definition well_typed_page (page : json) : Prop :=
  ∃ m s items,
    page = JObj m ∧
    m !! "page_no" = Some (JStr s) ∧
    m !! "bill_items" = Some (JList items) ∧
    Forall well_typed_item items.

(** The item [b] of the response holds the values of the item of the
    tree, and the page [pg] those of the page. *)
Definition unchanged_item (item : json) (b : BillItem) : Prop :=
  ∃ m amount rate quantity r q,
    item = JObj m ∧
    m !! "item_name" = Some (JStr (item_name b)) ∧
    m !! "item_amount" = Some amount ∧ same_number amount (item_amount b) ∧
    m !! "item_rate" = Some rate ∧ item_rate b = Some r ∧ same_number rate r ∧
    m !! "item_quantity" = Some quantity ∧ item_quantity b = Some q ∧
    same_number quantity q.

Definition unchanged_page (page : json) (pg : PageLineItems) : Prop :=
  ∃ m s items,
    page = JObj m ∧
    m !! "page_no" = Some (JStr s) ∧ page_no pg = Text s ∧
    m !! "bill_items" = Some (JList items) ∧
    Forall2 unchanged_item items (bill_items pg).

(** The magnitude of [x] is [(k + 1/2) / 100], half a cent above [k]
    cents, and its sign is [neg]. *)
Definition on_half_cent (x : PrimFloat.float) (neg : bool) (k : Z) : Prop :=
  ∃ m e, Prim2SF x = S754_finite neg m e ∧ e < 0 ∧
         200 * Zpos m = (2 * k + 1) * 2 ^ (- e).

(** An exception whose description is not the empty text. *)
Definition described (e : exn) : Prop :=
  match e with
  | HTTPException _ detail => detail ≠ ""
  | _ => str_exn e ≠ ""
  end.

(** Concrete trees and worlds *)

Definition dict (l : list (string * json)) : json := JObj (list_to_map l).

(** A world in which the document is fetched and decoded and the model
    answers [raw_data]. *)
Definition answering (raw_data : json) : World :=
  {| requests_get := λ _, Returned "image bytes";
     Image_open := λ content, Returned (Decoded content);
     generate_content := λ _, Returned raw_data |}.

(** A world in which the fetch ends in a 404. *)
Definition not_found : World :=
  {| requests_get := λ url,
       Threw ("404 Client Error: Not Found for url: " ++ url);
     Image_open := λ content, Returned (Decoded content);
     generate_content := λ _, Returned JNull |}.

Definition a_request : DocumentRequest :=
  {| document := "https://example.com/bill.png" |}.

Definition one_page (items : list json) : json :=
  dict [("pagewise_line_items",
         JList [dict [("page_no", JStr "1"); ("bill_items", JList items)]])].

(** Scenario B of the specification. *)
Definition bandage : json :=
  dict [("item_name", JStr "Bandage"); ("item_amount", JInt 10)].
Definition scenario_B : json := one_page [bandage].

(** An exception that is not the handler's own [HTTPException]: the
    clause [except Exception] reports it. *)
Definition uncategorized (e : exn) : Prop :=
  match e with
  | HTTPException _ _ => False
  | _ => True
  end.

(** The two envelopes of the handler. *)
Definition success (d : ExtractionData) : APIResponse :=
  {| is_success := true; data := Some d; error := None |}.

Definition failure (description : string) : APIResponse :=
  {| is_success := false; data := None; error := Some description |}.

(** Values a [for] loop cannot walk. *)
Definition scalar (v : json) : Prop :=
  match v with
  | JNull | JBool _ | JInt _ | JFloat _ => True
  | _ => False
  end.

Definition not_iterable (v : json) : string :=
  "'" ++ type_name v ++ "' object is not iterable".

(** An item whose amount is present and is not a number. *)
Definition unparseable_amount : json :=
  one_page [dict [("item_name", JStr "Bandage"); ("item_amount", JStr "N/A")]].

(** A root whose [pagewise_line_items] is present and null. *)
Definition null_pages : json := dict [("pagewise_line_items", JNull)].

(** An item whose amount is one eighth, half a cent above twelve cents. *)
Definition one_eighth : json :=
  one_page [dict [("item_name", JStr "Syringe");
                  ("item_amount", JFloat 0.125)]].

(** Scenario A of the specification: the amount and the rate are floats,
    the quantity is the integer [2]. *)
Definition paracetamol : json :=
  dict [("item_name", JStr "Paracetamol"); ("item_amount", JFloat 50);
        ("item_rate", JFloat 25); ("item_quantity", JInt 2)].
Definition scenario_A : json := one_page [paracetamol].

(** An item whose amount is the integer [2 ^ 53 + 1], which no double
    holds, and one whose amount is [2 ^ 1024]. *)
Definition scan : json :=
  dict [("item_name", JStr "Scan"); ("item_amount", JInt 9007199254740993);
        ("item_rate", JInt 1); ("item_quantity", JInt 1)].
Definition scan_item : BillItem :=
  {| item_name := "Scan"; item_amount := 9007199254740992;
     item_rate := Some 1%float; item_quantity := Some 1%float |}.
Definition huge_amount : json :=
  one_page [dict [("item_name", JStr "Scan"); ("item_amount", JInt (2 ^ 1024));
                  ("item_rate", JInt 1); ("item_quantity", JInt 1)]].

(** An item whose rate is present and null. *)
Definition null_rate : json :=
  one_page [dict [("item_name", JStr "Gauze"); ("item_amount", JFloat 5);
                  ("item_rate", JNull)]].

(** The responses to the scenarios. *)
Definition one_page_data (b : BillItem) : ExtractionData :=
  {| pagewise_line_items := [{| page_no := Text "1"; bill_items := [b] |}];
     total_item_count := 1;
     reconciled_amount := round2 (sum [item_amount b]) |}.

Definition bandage_item : BillItem :=
  {| item_name := "Bandage"; item_amount := 10;
     item_rate := Some 0%float; item_quantity := Some 1%float |}.

Definition paracetamol_item : BillItem :=
  {| item_name := "Paracetamol"; item_amount := 50;
     item_rate := Some 25%float; item_quantity := Some 2%float |}.

Definition syringe_item : BillItem :=
  {| item_name := "Syringe"; item_amount := 0.125;
     item_rate := Some 0%float; item_quantity := Some 1%float |}.

(** Scenario C of the specification: page 1 sums to 30.0, page 2 to 45.5. *)
Definition scenario_C : json :=
  dict [("pagewise_line_items",
         JList [dict [("page_no", JStr "1");
                      ("bill_items",
                       JList [dict [("item_name", JStr "Gloves");
                                    ("item_amount", JFloat 12.5)];
                              dict [("item_name", JStr "Mask");
                                    ("item_amount", JFloat 17.5)]])];
                dict [("page_no", JStr "2");
                      ("bill_items",
                       JList [dict [("item_name", JStr "Saline");
                                    ("item_amount", JFloat 45.5)]])]])].

(** A world in which the document is fetched and is not an image. *)
Definition undecodable : World :=
  {| requests_get := λ _, Returned "<html>";
     Image_open := λ _, Threw "cannot identify image file";
     generate_content := λ _, Returned JNull |}.

(** A world in which the model call or the parsing of its text throws. *)
Definition model_down (cause : string) : World :=
  {| requests_get := λ _, Returned "image bytes";
     Image_open := λ content, Returned (Decoded content);
     generate_content := λ _, Threw cause |}.

(** A good item, then an amount that is not a number, then a null rate. *)
Definition gauze_null_rate : json :=
  dict [("item_name", JStr "Gauze"); ("item_amount", JFloat 5);
        ("item_rate", JNull)].
Definition bandage_no_amount : json :=
  dict [("item_name", JStr "Bandage"); ("item_amount", JStr "N/A")].
Definition good_bad_bad : json :=
  one_page [bandage; bandage_no_amount; gauze_null_rate].

(** Pages numbered by an integer, by null and not at all. *)
Definition numbered_pages : json :=
  dict [("pagewise_line_items",
         JList [dict [("page_no", JInt 2)]; dict [("page_no", JNull)];
                dict []])].

(** A page that is a number, and a text where the pages should be. *)
Definition number_page : json := dict [("pagewise_line_items", JList [JInt 7])].
Definition text_pages : json := dict [("pagewise_line_items", JStr "n/a")].

(** An amount spelled [nan]. *)
Definition nan_amount : json :=
  one_page [bandage; dict [("item_name", JStr "Mask"); ("item_amount", JStr "nan")]].

Definition nan_item : BillItem :=
  {| item_name := "Mask"; item_amount := nan;
     item_rate := Some 0%float; item_quantity := Some 1%float |}.

(** The root whose [pagewise_line_items] is the list [pages]. *)
Definition root_of (pages : list json) : json :=
  dict [("pagewise_line_items", JList pages)].

Definition gloves : json :=
  dict [("item_name", JStr "Gloves"); ("item_amount", JFloat 12.5)].
Definition page_of_items (no : string) (items : list json) : json :=
  dict [("page_no", JStr no); ("bill_items", JList items)].

(** The response with the single page [no] holding [items]. *)
Definition page_data (no : string) (items : list BillItem) : ExtractionData :=
  {| pagewise_line_items := [{| page_no := Text no; bill_items := items |}];
     total_item_count := Z.of_nat (length items);
     reconciled_amount := round2 (sum (item_amount <$> items)) |}.

Definition gloves_item : BillItem :=
  {| item_name := "Gloves"; item_amount := 12.5;
     item_rate := Some 0%float; item_quantity := Some 1%float |}.

Definition empty_data : ExtractionData :=
  {| pagewise_line_items := []; total_item_count := 0;
     reconciled_amount := zero |}.

Definition numbered_pages_data : ExtractionData :=
  {| pagewise_line_items :=
       [{| page_no := Text "2"; bill_items := [] |};
        {| page_no := Text "None"; bill_items := [] |};
        {| page_no := Text "1"; bill_items := [] |}];
     total_item_count := 0;
     reconciled_amount := zero |}.

(** The item [m] with the amount [v], the page [p] with the items [items]
    and the root [root] with the pages [pages] in place of their own. *)
Definition with_amount (v : json) (m : gmap string json) : json :=
  JObj (<["item_amount" := v]> m).
Definition with_items (items : list json) (p : gmap string json) : json :=
  JObj (<["bill_items" := JList items]> p).
Definition with_pages (pages : list json) (root : gmap string json) : json :=
  JObj (<["pagewise_line_items" := JList pages]> root).

Definition mask_item : BillItem :=
  {| item_name := "Mask"; item_amount := 5;
     item_rate := Some 0%float; item_quantity := Some 1%float |}.

(** ** The result monad and the loops *)

Section Monad.
Context {A B : Type}.
Implicit Types (m : result A) (f : A → result B).

Lemma bind_Ok m f b :
  m ≫= f = Ok b ↔ ∃ a, m = Ok a ∧ f a = Ok b.
Proof.
  destruct m as [a|e]; simpl; split.
  - intros H. by exists a.
  - by intros (a' & [= <-] & H).
  - discriminate.
  - by intros (a' & [=] & _).
Qed.

Lemma bind_Raise m f e :
  m ≫= f = Raise e ↔ m = Raise e ∨ ∃ a, m = Ok a ∧ f a = Raise e.
Proof.
  destruct m as [a|e']; simpl; split.
  - intros H. right. by exists a.
  - intros [[=]|(a' & [= <-] & H)]. done.
  - intros [= ->]. by left.
  - intros [[= ->]|(a' & [=] & _)]. done.
Qed.

Lemma bind_Raise_l m f e : m = Raise e → m ≫= f = Raise e.
Proof. by intros ->. Qed.
End Monad.

(** Splits a hypothesis [x ← m; k = Ok b] into its steps. *)
Ltac steps H :=
  repeat match type of H with
    | _ ≫= _ = Ok _ =>
        let a := fresh "a" in let Ha := fresh "H" a in
        apply bind_Ok in H as (a & Ha & H)
    | mret _ = Ok _ => injection H as H
    | Ok _ = Ok _ => injection H as H
    end.

Section Loops.
Context {S X : Type}.
Implicit Types (body : S → X → result S) (xs : list X).

Lemma for_each_app body xs ys s :
  for_each body (xs ++ ys) s = s' ← for_each body xs s; for_each body ys s'.
Proof.
  revert s. induction xs as [|x xs IH]; intros s; simpl; [done|].
  destruct (body s x) as [s'|e]; simpl; [apply IH|done].
Qed.

(** A loop that raises does so in the body, at one of its elements. *)
Lemma for_each_Raise body xs s e :
  for_each body xs s = Raise e → ∃ s' x, x ∈ xs ∧ body s' x = Raise e.
Proof.
  revert s. induction xs as [|x xs IH]; intros s; simpl; [discriminate|].
  intros [H|(s' & _ & H)]%bind_Raise.
  - exists s, x. split; [left|done].
  - destruct (IH _ H) as (s'' & y & Hy & Hb). exists s'', y.
    split; [by right|done].
Qed.

(** A body that raises at [x] whatever the state stops the loop, unless
    an earlier element did. *)
Lemma for_each_stops body xs s x :
  x ∈ xs → (∀ s', ∃ e, body s' x = Raise e) →
  ∃ e, for_each body xs s = Raise e.
Proof.
  intros Hin Hx. revert s.
  induction Hin as [x xs|x y xs Hin IH]; intros s; simpl.
  - destruct (Hx s) as [e ->]. by exists e.
  - destruct (body s y) as [s'|e]; simpl; [by apply IH|by exists e].
Qed.
End Loops.

Lemma item_loop_Ok items st st' :
  for_each item_body items st = Ok st' ↔
  ∃ vs, Forall2 (λ item v, validated_item item = Ok v) items vs ∧
        st' = (st.1 ++ vs, st.2 ++ vs)%list.
Proof.
  revert st. induction items as [|item items IH]; intros [p a]; simpl.
  - split.
    + intros [= <-]. exists []. by rewrite !app_nil_r.
    + intros (vs & Hvs & ->). inversion Hvs. by rewrite !app_nil_r.
  - rewrite bind_Ok. unfold item_body at 1. split.
    + intros (st1 & H1 & H2). steps H1. subst st1.
      apply IH in H2 as (vs & Hvs & ->). simpl.
      exists (a0 :: vs). split; [by constructor|].
      by rewrite <- !app_assoc.
    + intros (vs & Hvs & ->). inversion Hvs as [|? v ? vs' Hv Hvs']; subst.
      exists (p ++ [v], a ++ [v])%list. rewrite Hv. split; [done|].
      apply IH. exists vs'. split; [done|]. simpl. by rewrite <- !app_assoc.
Qed.

Lemma page_body_Ok st page st' :
  page_body st page = Ok st' ↔
  ∃ pg, page_reads page pg ∧
        st' = (st.1 ++ bill_items pg, st.2 ++ [pg])%list.
Proof.
  unfold page_body, page_reads, raw_items. split.
  - intros H. steps H. apply item_loop_Ok in Ha1 as (vs & Hvs & ->).
    simpl in H. subst st'.
    exists {| page_no := str a2; bill_items := vs |}. simpl. split; [|done].
    exists a0, a2. rewrite Ha. simpl. by rewrite Ha0.
  - intros ([pn vs] & (items & v & Hitems & Hvs & Hv & Hpn) & ->).
    simpl in *. subst pn. steps Hitems. rewrite Ha. simpl. rewrite Hitems.
    simpl. assert (for_each item_body items ([], st.1)
                   = Ok (vs, st.1 ++ vs)%list) as ->.
    { apply item_loop_Ok. by exists vs. }
    simpl. by rewrite Hv.
Qed.

Lemma page_loop_Ok pages st st' :
  for_each page_body pages st = Ok st' ↔
  ∃ pgs, Forall2 page_reads pages pgs ∧
         st' = (st.1 ++ concat (bill_items <$> pgs), st.2 ++ pgs)%list.
Proof.
  revert st. induction pages as [|page pages IH]; intros [a ps]; simpl.
  - split.
    + intros [= <-]. exists []. simpl. by rewrite !app_nil_r.
    + intros (pgs & Hpgs & ->). inversion Hpgs. simpl. by rewrite !app_nil_r.
  - rewrite bind_Ok. split.
    + intros (st1 & (pg & Hpg & ->)%page_body_Ok & H2).
      apply IH in H2 as (pgs & Hpgs & ->). simpl.
      exists (pg :: pgs). split; [by constructor|]. simpl.
      by rewrite <- !app_assoc.
    + intros (pgs & Hpgs & ->).
      inversion Hpgs as [|? pg ? pgs' Hpg Hpgs']; subst.
      exists (a ++ bill_items pg, ps ++ [pg])%list. split.
      * apply page_body_Ok. by exists pg.
      * apply IH. exists pgs'. split; [done|]. simpl.
        by rewrite <- !app_assoc.
Qed.

(** The handler's step 3, read off the loops. *)
Lemma reconcile_Ok raw_data d :
  reconcile raw_data = Ok d ↔
  ∃ pages pgs,
    raw_pages raw_data = Ok pages ∧ Forall2 page_reads pages pgs ∧
    d = {| pagewise_line_items := pgs;
           total_item_count :=
             Z.of_nat (length (concat (bill_items <$> pgs)));
           reconciled_amount :=
             round2 (sum (item_amount <$> concat (bill_items <$> pgs))) |}.
Proof.
  unfold reconcile, raw_pages. split.
  - intros H. steps H. apply page_loop_Ok in Ha1 as (pgs & Hpgs & ->).
    simpl in H. subst d. exists a0, pgs. rewrite Ha. by simpl.
  - intros (pages & pgs & Hpages & Hpgs & ->). steps Hpages.
    rewrite Ha. simpl. rewrite Hpages. simpl.
    assert (for_each page_body pages ([], [])
            = Ok (concat (bill_items <$> pgs), pgs)) as ->; [|done].
    apply page_loop_Ok. by exists pgs.
Qed.

(** ** The envelope *)

Lemma try_body_Ok w request d :
  try_body w request = Ok d ↔
  ∃ raw_data, extraction_returns w request raw_data ∧ reconcile raw_data = Ok d.
Proof.
  unfold try_body, extraction_returns. split.
  - intros H. steps H. exists a0. split; [by exists a|done].
  - intros (raw_data & (image & -> & Himg) & Hd). simpl. by rewrite Himg.
Qed.

Lemma success_envelope w request d :
  try_body w request = Ok d →
  extract_bill_data w request
  = {| is_success := true; data := Some d; error := None |}.
Proof. unfold extract_bill_data. by intros ->. Qed.

Lemma failure_envelope w request e :
  try_body w request = Raise e →
  extract_bill_data w request
  = {| is_success := false; data := None;
       error := Some match e with
                     | HTTPException _ detail => detail
                     | _ => str_exn e
                     end |}.
Proof. unfold extract_bill_data. intros ->. by destruct e. Qed.

Lemma data_Some w request d :
  data (extract_bill_data w request) = Some d → try_body w request = Ok d.
Proof.
  destruct (try_body w request) as [d'|e] eqn:H.
  - rewrite (success_envelope _ _ _ H). simpl. congruence.
  - by rewrite (failure_envelope _ _ _ H).
Qed.

Lemma reconcile_Raise_envelope w request raw_data e :
  extraction_returns w request raw_data → reconcile raw_data = Raise e →
  try_body w request = Raise e.
Proof.
  intros (image & Himg & Hraw) H. unfold try_body.
  rewrite Himg. simpl. rewrite Hraw. done.
Qed.

(** ** Keys the handler does not read *)

Lemma get_insert_ne m key key' v dflt :
  key ≠ key' → get (JObj (<[key:=v]> m)) key' dflt = get (JObj m) key' dflt.
Proof. intros H. simpl. by rewrite lookup_insert_ne. Qed.

Lemma validated_item_insert item key v :
  key ≠ "item_name" → key ≠ "item_amount" → key ≠ "item_rate" →
  key ≠ "item_quantity" →
  validated_item (JObj (<[key:=v]> item)) = validated_item (JObj item).
Proof.
  intros. unfold validated_item. by rewrite !get_insert_ne.
Qed.

Lemma page_body_insert st page key v :
  key ≠ "bill_items" → key ≠ "page_no" →
  page_body st (JObj (<[key:=v]> page)) = page_body st (JObj page).
Proof.
  intros. unfold page_body, get. by rewrite !lookup_insert_ne.
Qed.

Lemma reconcile_insert root key v :
  key ≠ "pagewise_line_items" →
  reconcile (JObj (<[key:=v]> root)) = reconcile (JObj root).
Proof. intros. unfold reconcile. by rewrite get_insert_ne. Qed.

(** ** Sum and count *)

(** C1.  In a successful response [reconciled_amount] is the sum of the
    [item_amount] of every item of every page, rounded to two places; and it
    is not read from any other field of the tree: a key the handler does not
    look up, added with any value to the root, to a page or to an item,
    changes nothing. *)
Theorem reconciled_amount_is_rounded_item_sum :
  (∀ w request d,
     data (extract_bill_data w request) = Some d →
     reconciled_amount d = round2 (sum (item_amount <$> items_of d))) ∧
  (∀ root key v,
     key ≠ "pagewise_line_items" →
     reconcile (JObj (<[key:=v]> root)) = reconcile (JObj root)) ∧
  (∀ st page key v,
     key ≠ "bill_items" → key ≠ "page_no" →
     page_body st (JObj (<[key:=v]> page)) = page_body st (JObj page)) ∧
  (∀ item key v,
     key ≠ "item_name" → key ≠ "item_amount" → key ≠ "item_rate" →
     key ≠ "item_quantity" →
     validated_item (JObj (<[key:=v]> item)) = validated_item (JObj item)).
Proof.
  split; [|auto using reconcile_insert, page_body_insert, validated_item_insert].
  intros w request d (raw_data & _ & Hd)%data_Some%try_body_Ok.
  apply reconcile_Ok in Hd as (pages & pgs & _ & _ & ->). done.
Qed.

(** C4.  In a successful response [total_item_count] is the number of items
    of all pages together, and the pages hold one item for each element the
    inner loop met in the tree, in order, defaulted fields or not. *)
Theorem total_item_count_counts_every_item w request d :
  data (extract_bill_data w request) = Some d →
  total_item_count d = Z.of_nat (length (items_of d)) ∧
  ∃ raw_data pages,
    extraction_returns w request raw_data ∧
    raw_pages raw_data = Ok pages ∧
    Forall2 (λ page pg, ∃ items,
               raw_items page = Ok items ∧
               length (bill_items pg) = length items ∧
               Forall2 (λ item b, validated_item item = Ok b)
                       items (bill_items pg))
            pages (pagewise_line_items d).
Proof.
  intros (raw_data & Hraw & Hd)%data_Some%try_body_Ok.
  apply reconcile_Ok in Hd as (pages & pgs & Hpages & Hpgs & ->).
  split; [done|]. exists raw_data, pages. do 2 (split; [done|]). simpl.
  eapply Forall2_impl; [exact Hpgs|].
  intros page pg (items & v & Hitems & Hvs & _). exists items.
  split; [done|]. split; [|done]. symmetry. by eapply Forall2_length.
Qed.

(** C5.  Every envelope the endpoint returns carries exactly one of [data]
    and [error]: [data] alone when [is_success] is true, [error] alone when
    it is false. *)
Theorem envelope_has_data_xor_error w request :
  let r := extract_bill_data w request in
  (is_success r = true ∧ is_Some (data r) ∧ error r = None) ∨
  (is_success r = false ∧ data r = None ∧ is_Some (error r)).
Proof.
  simpl. destruct (try_body w request) as [d|e] eqn:H.
  - rewrite (success_envelope _ _ _ H). left. simpl. eauto.
  - rewrite (failure_envelope _ _ _ H). right. simpl. eauto.
Qed.

(** ** Items *)

Lemma validated_item_Ok m b :
  validated_item (JObj m) = Ok b ↔
  ∃ s amount rate quantity,
    default (JStr "Unknown") (m !! "item_name") = JStr s ∧
    float (default (JInt 0) (m !! "item_amount")) = Ok amount ∧
    float (default (JInt 0) (m !! "item_rate")) = Ok rate ∧
    float (default (JInt 1) (m !! "item_quantity")) = Ok quantity ∧
    b = {| item_name := s; item_amount := amount;
           item_rate := Some rate; item_quantity := Some quantity |}.
Proof.
  unfold validated_item, get. simpl. split.
  - intros H. steps H.
    destruct (default (JStr "Unknown") (m !! "item_name")) eqn:Hn;
      try discriminate.
    injection H as <-. by exists s, a, a0, a1.
  - intros (s & amount & rate & quantity & -> & -> & -> & -> & ->). done.
Qed.

Lemma float_of_default_0 : float (JInt 0) = Ok zero.
Proof. reflexivity. Qed.

Lemma float_of_default_1 : float (JInt 1) = Ok one.
Proof. reflexivity. Qed.

(** Every exception raised while an item is sanitized comes from one of
    the three [float] calls or from the constructor. *)
Lemma validated_item_Raise m e :
  validated_item (JObj m) = Raise e ↔
  float (default (JInt 0) (m !! "item_amount")) = Raise e ∨
  (∃ amount, float (default (JInt 0) (m !! "item_amount")) = Ok amount ∧
   (float (default (JInt 0) (m !! "item_rate")) = Raise e ∨
    ∃ rate, float (default (JInt 0) (m !! "item_rate")) = Ok rate ∧
     (float (default (JInt 1) (m !! "item_quantity")) = Raise e ∨
      ∃ quantity,
        float (default (JInt 1) (m !! "item_quantity")) = Ok quantity ∧
        BillItem_init (default (JStr "Unknown") (m !! "item_name"))
                      amount rate quantity = Raise e))).
Proof.
  unfold validated_item, get. simpl.
  destruct (float (default (JInt 0) (m !! "item_amount"))) as [a|ea]; simpl.
  2: { split; [intros [= ->]; by left|by intros [[= ->]|(? & [=] & _)]]. }
  destruct (float (default (JInt 0) (m !! "item_rate"))) as [r|er]; simpl.
  2: { split; [intros [= ->]; right; eauto|].
       by intros [[=]|(? & _ & [[= ->]|(? & [=] & _)])]. }
  destruct (float (default (JInt 1) (m !! "item_quantity"))) as [q|eq]; simpl.
  2: { split; [intros [= ->]; right; eauto 7|].
       by intros [[=]|(? & _ & [[=]|(? & _ & [[= ->]|(? & [=] & _)])])]. }
  split; [intros H; right; eauto 10|].
  by intros [[=]|(? & [= <-] & [[=]|(? & [= <-] & [[=]|(? & [= <-] & H)])])].
Qed.

(** An item on which sanitizing raises stops the whole reconciliation. *)
Lemma bad_item_raises raw_data item :
  has_item raw_data item → (∃ e, validated_item item = Raise e) →
  ∃ e, reconcile raw_data = Raise e.
Proof.
  intros (pages & page & items & Hpages & Hpage & Hitems & Hitem) [e He].
  unfold raw_pages in Hpages. steps Hpages.
  unfold reconcile. rewrite Ha. simpl. rewrite Hpages. simpl.
  destruct (for_each_stops page_body pages ([], []) page Hpage) as [e' ->];
    [|by exists e'].
  intros st. unfold raw_items in Hitems. steps Hitems.
  unfold page_body. rewrite Ha0. simpl. rewrite Hitems. simpl.
  destruct (for_each_stops item_body items ([], st.1) item Hitem) as [e' ->];
    [|by exists e'].
  intros st'. unfold item_body. rewrite He. by exists e.
Qed.

Lemma bad_item_fails_request w request raw_data item :
  extraction_returns w request raw_data → has_item raw_data item →
  (∃ e, validated_item item = Raise e) →
  let r := extract_bill_data w request in
  is_success r = false ∧ data r = None ∧ is_Some (error r).
Proof.
  intros Hraw Hitem He. destruct (bad_item_raises _ _ Hitem He) as [e' H].
  simpl. rewrite (failure_envelope _ _ e'); [simpl; eauto|].
  by eapply reconcile_Raise_envelope.
Qed.

Lemma unusable_field_raises m :
  (∃ v, m !! "item_name" = Some v ∧ ∀ s, v ≠ JStr s) ∨
  (∃ key v e, key ∈ ["item_amount"; "item_rate"; "item_quantity"] ∧
              m !! key = Some v ∧ float v = Raise e) →
  ∃ e, validated_item (JObj m) = Raise e.
Proof.
  intros Hbad. destruct (validated_item (JObj m)) as [b|e] eqn:H; [|by exists e].
  exfalso. apply validated_item_Ok in H
    as (s & amount & rate & quantity & Hn & Ha & Hr & Hq & _).
  destruct Hbad as [(v & Hv & Hs)|(key & v & e & Hkey & Hv & He)].
  - rewrite Hv in Hn. simpl in Hn. by apply (Hs s).
  - apply list_elem_of_In in Hkey. simpl in Hkey.
    destruct Hkey as [<-|[<-|[<-|[]]]]; rewrite Hv in *; simpl in *; congruence.
Qed.

(** ** Defaults and malformed content *)

(** C2, amended.  A field takes its default (["Unknown"], [0], [0], [1])
    when its key is absent, and the item is kept.  A present value is not
    defaulted: when the name is not text, or [float] raises on the amount,
    the rate or the quantity, the request ends in the failure envelope, as
    it does for a root that is not a mapping. *)
Theorem default_only_for_absent_key :
  (∀ m b,
     validated_item (JObj m) = Ok b →
     (m !! "item_name" = None → item_name b = "Unknown") ∧
     (m !! "item_amount" = None → item_amount b = zero) ∧
     (m !! "item_rate" = None → item_rate b = Some zero) ∧
     (m !! "item_quantity" = None → item_quantity b = Some one)) ∧
  (∀ w request raw_data m,
     extraction_returns w request raw_data → has_item raw_data (JObj m) →
     (∃ v, m !! "item_name" = Some v ∧ ∀ s, v ≠ JStr s) ∨
     (∃ key v e, key ∈ ["item_amount"; "item_rate"; "item_quantity"] ∧
                 m !! key = Some v ∧ float v = Raise e) →
     ∃ t, extract_bill_data w request = failure t) ∧
  (∀ w request raw_data,
     extraction_returns w request raw_data → (∀ m, raw_data ≠ JObj m) →
     extract_bill_data w request
     = failure ("'" ++ type_name raw_data ++ "' object has no attribute 'get'")).
Proof.
  split; [|split].
  - intros m b (s & amount & rate & quantity & Hn & Ha & Hr & Hq & ->)
      %validated_item_Ok. simpl.
    repeat split; intros Habs; rewrite Habs in *; cbn [default] in *.
    + congruence.
    + rewrite float_of_default_0 in Ha. congruence.
    + rewrite float_of_default_0 in Hr. congruence.
    + rewrite float_of_default_1 in Hq. congruence.
  - intros w request raw_data m Hraw Hitem Hbad.
    destruct (bad_item_raises _ _ Hitem (unusable_field_raises _ Hbad))
      as [e He].
    eexists. apply failure_envelope. by eapply reconcile_Raise_envelope.
  - intros w request raw_data Hraw Hroot.
    rewrite (failure_envelope _ _ (AttributeError
      ("'" ++ type_name raw_data ++ "' object has no attribute 'get'")));
      [done|].
    eapply reconcile_Raise_envelope; [done|].
    destruct raw_data; try done. by destruct (Hroot m).
Qed.

(** C2 as stated fails: an amount that is present and is not a number is
    not replaced by [0]; the request fails. *)
Lemma unparseable_amount_fails_request :
  extract_bill_data (answering unparseable_amount) a_request
  = failure "could not convert string to float: 'N/A'".
Proof. vm_compute. reflexivity. Qed.

(** C3, amended.  An absent [pagewise_line_items] gives the empty result
    and an absent [bill_items] an empty page.  A key that is present with
    null, a number or a boolean is not read as an empty sequence: the loop
    raises and the request ends in the failure envelope. *)
Theorem absent_sequence_is_empty :
  (∀ w request root,
     extraction_returns w request (JObj root) →
     root !! "pagewise_line_items" = None →
     extract_bill_data w request
     = success {| pagewise_line_items := []; total_item_count := 0;
                  reconciled_amount := zero |}) ∧
  (∀ st page,
     page !! "bill_items" = None →
     page_body st (JObj page)
     = Ok (st.1,
           (st.2 ++ [{| page_no := str (default (JStr "1") (page !! "page_no"));
                        bill_items := [] |}])%list)) ∧
  (∀ w request root v,
     extraction_returns w request (JObj root) →
     root !! "pagewise_line_items" = Some v → scalar v →
     extract_bill_data w request = failure (not_iterable v)) ∧
  (∀ w request raw_data pages page v,
     extraction_returns w request raw_data →
     raw_pages raw_data = Ok pages → JObj page ∈ pages →
     page !! "bill_items" = Some v → scalar v →
     ∃ t, extract_bill_data w request = failure t).
Proof.
  split; [|split; [|split]].
  - intros w request root Hraw Habs. apply success_envelope, try_body_Ok.
    exists (JObj root). split; [done|].
    unfold reconcile, get. by rewrite Habs.
  - intros st page Habs. unfold page_body, get. by rewrite Habs.
  - intros w request root v Hraw Hv Hsc.
    rewrite (failure_envelope _ _ (TypeError (not_iterable v))); [done|].
    eapply reconcile_Raise_envelope; [done|].
    unfold reconcile, get. rewrite Hv. simpl. by destruct v.
  - intros w request raw_data pages page v Hraw Hpages Hpage Hv Hsc.
    unfold raw_pages in Hpages. steps Hpages.
    destruct (for_each_stops page_body pages ([], []) (JObj page) Hpage)
      as [e He].
    { intros st. exists (TypeError (not_iterable v)).
      unfold page_body, get. rewrite Hv. simpl. by destruct v. }
    eexists. apply failure_envelope.
    eapply reconcile_Raise_envelope; [done|].
    unfold reconcile. rewrite Ha. simpl. rewrite Hpages. simpl.
    by rewrite He.
Qed.

(** C3 as stated fails: a [pagewise_line_items] that is present and null
    is not read as an empty sequence; the request fails. *)
Lemma null_pages_fails_request :
  extract_bill_data (answering null_pages) a_request
  = failure "'NoneType' object is not iterable".
Proof. vm_compute. reflexivity. Qed.

(** C10.  An item in which one of the four keys is present and null makes
    the whole request fail: the default stands in for an absent key only,
    so the null goes to [float], which raises [TypeError], or to the model
    constructor, which raises [ValidationError]. *)
Theorem null_field_fails_request w request raw_data m key :
  extraction_returns w request raw_data → has_item raw_data (JObj m) →
  key ∈ ["item_name"; "item_amount"; "item_rate"; "item_quantity"] →
  m !! key = Some JNull →
  (∃ e, validated_item (JObj m) = Raise e) ∧
  (∃ t, extract_bill_data w request = failure t) ∧
  (∃ msg, float JNull = Raise (TypeError msg)) ∧
  (∀ amount rate quantity, ∃ msg,
     BillItem_init JNull amount rate quantity = Raise (ValidationError msg)).
Proof.
  intros Hraw Hitem Hkey Hnull.
  assert (∃ e, validated_item (JObj m) = Raise e) as Hbad.
  { apply unusable_field_raises.
    apply list_elem_of_In in Hkey. simpl in Hkey.
    destruct Hkey as [<-|Hkey].
    - left. by exists JNull.
    - right. exists key, JNull. eexists. split; [|split; [done|reflexivity]].
      apply list_elem_of_In. simpl. tauto. }
  split; [done|]. split; [|split; [by eexists|by eexists]].
  destruct (bad_item_raises _ _ Hitem Hbad) as [e He].
  eexists. apply failure_envelope. by eapply reconcile_Raise_envelope.
Qed.

(** ** What the handler can raise *)

Lemma get_Raise v key dflt e :
  get v key dflt = Raise e → uncategorized e ∧ described e.
Proof. destruct v; intros [= <-]; by split. Qed.

Lemma iter_Raise v e : iter v = Raise e → uncategorized e ∧ described e.
Proof. destruct v; intros [= <-]; by split. Qed.

Lemma float_Raise v e : float v = Raise e → uncategorized e ∧ described e.
Proof.
  destruct v as [|b|n|f|s|l|m]; simpl; try (intros [= <-]; by split).
  - unfold float_of_int.
    destruct (binary_normalize prec emax n 0 false);
      intros [= <-]; by split.
  - destruct (float_of_string s); intros [= <-]; by split.
Qed.

Lemma BillItem_init_Raise name amount rate quantity e :
  BillItem_init name amount rate quantity = Raise e →
  uncategorized e ∧ described e.
Proof. destruct name; intros [= <-]; by split. Qed.

Lemma validated_item_Raise_described item e :
  validated_item item = Raise e → uncategorized e ∧ described e.
Proof.
  destruct item as [| | | | | |m]; try (intros [= <-]; by split).
  intros [H|(a & _ & [H|(r & _ & [H|(q & _ & H)])])]%validated_item_Raise;
    eauto using float_Raise, BillItem_init_Raise.
Qed.

(** Splits a hypothesis [x ← m; k = Raise e] by the step that raised. *)
Ltac raised H :=
  apply bind_Raise in H as [H|(? & _ & H)]; [|try raised H].

Lemma item_loop_Raise items st e :
  for_each item_body items st = Raise e → uncategorized e ∧ described e.
Proof.
  intros (st' & item & _ & H)%for_each_Raise. unfold item_body in H.
  raised H; [by eapply validated_item_Raise_described|discriminate].
Qed.

Lemma page_body_Raise st page e :
  page_body st page = Raise e → uncategorized e ∧ described e.
Proof.
  unfold page_body. intros H. raised H;
    eauto using get_Raise, iter_Raise, item_loop_Raise. discriminate.
Qed.

Lemma reconcile_Raise raw_data e :
  reconcile raw_data = Raise e → uncategorized e ∧ described e.
Proof.
  unfold reconcile. intros H. raised H; eauto using get_Raise, iter_Raise.
  - apply for_each_Raise in H as (st' & page & _ & H).
    by eapply page_body_Raise.
  - discriminate.
Qed.

Lemma try_body_Raise w request e :
  try_body w request = Raise e → described e.
Proof.
  unfold try_body, download_image, get_gemini_extraction.
  destruct (requests_get w (document request)) as [content|cause]; simpl;
    [|by intros [= <-]].
  destruct (Image_open w content) as [image|cause]; simpl;
    [|by intros [= <-]].
  destruct (generate_content w image) as [raw_data|cause]; simpl;
    [|by intros [= <-]].
  intros H. by eapply reconcile_Raise.
Qed.

(** ** Failures *)

(** C6.  A fetch that fails gives the failure envelope whose text names
    the cause; an exception raised by the reconciliation, which no clause
    names, gives the failure envelope with its description; and whatever
    happens the endpoint returns an envelope, whose error text is not
    empty when it is a failure. *)
Theorem failure_is_reported_in_envelope :
  (∀ w request cause,
     requests_get w (document request) = Threw cause →
     extract_bill_data w request
     = failure ("Failed to download image: " ++ cause) ∧
     "Failed to download image: " ++ cause ≠ "") ∧
  (∀ w request raw_data e,
     extraction_returns w request raw_data → reconcile raw_data = Raise e →
     uncategorized e ∧
     extract_bill_data w request = failure (str_exn e) ∧ str_exn e ≠ "") ∧
  (∀ w request,
     (∃ d, extract_bill_data w request = success d) ∨
     (∃ t, extract_bill_data w request = failure t ∧ t ≠ "")).
Proof.
  split; [|split].
  - intros w request cause H. split; [|done].
    unfold extract_bill_data, try_body, download_image. by rewrite H.
  - intros w request raw_data e Hraw He.
    destruct (reconcile_Raise _ _ He) as [Hu Hd]. split; [done|].
    rewrite (failure_envelope _ _ e) by by eapply reconcile_Raise_envelope.
    by destruct e.
  - intros w request. destruct (try_body w request) as [d|e] eqn:H.
    + left. exists d. by apply success_envelope.
    + right. rewrite (failure_envelope _ _ _ H).
      apply try_body_Raise in H. eexists. split; [done|]. by destruct e.
Qed.

(** ** Items that are kept *)

(** Every element the inner loop meets is in a successful response. *)
Lemma item_kept raw_data d item :
  reconcile raw_data = Ok d → has_item raw_data item →
  ∃ b, validated_item item = Ok b ∧ b ∈ items_of d.
Proof.
  intros (pages & pgs & Hpages & Hpgs & ->)%reconcile_Ok
         (pages' & page & items & Hpages' & Hpage & Hitems & Hitem).
  rewrite Hpages in Hpages'. injection Hpages' as <-.
  apply list_elem_of_lookup in Hpage as [i Hi].
  destruct (Forall2_lookup_l _ _ _ _ _ Hpgs Hi)
    as (pg & Hpg & items' & v & Hitems' & Hvs & _).
  rewrite Hitems in Hitems'. injection Hitems' as <-.
  apply list_elem_of_lookup in Hitem as [j Hj].
  destruct (Forall2_lookup_l _ _ _ _ _ Hvs Hj) as (b & Hb & Hv).
  exists b. split; [done|]. unfold items_of. simpl.
  apply list_elem_of_In, in_concat. exists (bill_items pg). split.
  - apply list_elem_of_In, list_elem_of_fmap. exists pg.
    split; [done|]. by eapply list_elem_of_lookup_2.
  - apply list_elem_of_In. by eapply list_elem_of_lookup_2.
Qed.

(** C7.  An item without the keys [item_rate] and [item_quantity] is
    sanitized to rate [0.0] and quantity [1.0]; with a text name and an
    amount [float] accepts it is accepted, and it is among the items of
    the response, which the count and the sum run over.  Scenario B yields
    one such item and the reconciled amount [10.0]. *)
Theorem absent_rate_and_quantity_default :
  (∀ m b,
     m !! "item_rate" = None → m !! "item_quantity" = None →
     validated_item (JObj m) = Ok b →
     item_rate b = Some zero ∧ item_quantity b = Some one) ∧
  (∀ m s v amount,
     m !! "item_rate" = None → m !! "item_quantity" = None →
     m !! "item_name" = Some (JStr s) → m !! "item_amount" = Some v →
     float v = Ok amount →
     validated_item (JObj m)
     = Ok {| item_name := s; item_amount := amount;
             item_rate := Some zero; item_quantity := Some one |}) ∧
  (∀ w request raw_data d m,
     extraction_returns w request raw_data →
     data (extract_bill_data w request) = Some d →
     has_item raw_data (JObj m) →
     m !! "item_rate" = None → m !! "item_quantity" = None →
     ∃ b, b ∈ items_of d ∧ validated_item (JObj m) = Ok b ∧
          item_rate b = Some zero ∧ item_quantity b = Some one) ∧
  extract_bill_data (answering scenario_B) a_request
  = success
      {| pagewise_line_items :=
           [{| page_no := Text "1";
               bill_items :=
                 [{| item_name := "Bandage"; item_amount := 10;
                     item_rate := Some 0%float;
                     item_quantity := Some 1%float |}] |}];
         total_item_count := 1;
         reconciled_amount := 10 |}.
Proof.
  assert (∀ m b,
     m !! "item_rate" = None → m !! "item_quantity" = None →
     validated_item (JObj m) = Ok b →
     item_rate b = Some zero ∧ item_quantity b = Some one) as Hdefault.
  { intros m b Hr Hq (s & amount & rate & quantity & _ & _ & Hrate & Hqty & ->)
      %validated_item_Ok.
    rewrite Hr, Hq in *. cbn [default] in *.
    rewrite float_of_default_0 in Hrate. rewrite float_of_default_1 in Hqty.
    simpl. split; congruence. }
  split; [done|]. split; [|split].
  - intros m s v amount Hr Hq Hn Ha Hv. apply validated_item_Ok.
    exists s, amount, zero, one. rewrite Hr, Hq, Hn, Ha. by simpl.
  - intros w request raw_data d m (image & Himg & Hraw)
           (raw' & (image' & Himg' & Hraw') & Hd)%data_Some%try_body_Ok
           Hitem Hr Hq.
    assert (raw' = raw_data) as -> by congruence.
    destruct (item_kept _ _ _ Hd Hitem) as (b & Hb & Hin).
    exists b. destruct (Hdefault m b Hr Hq Hb). done.
  - vm_compute. reflexivity.
Qed.

(** ** Well-formed trees *)

(** *** [float(n)] of an integer up to [2 ^ 53] is that integer *)

Lemma digits2_pos_bounds m :
  2 ^ (Z.pos (digits2_pos m) - 1) <= Z.pos m < 2 ^ Z.pos (digits2_pos m).
Proof.
  induction m as [m IH|m IH|]; simpl digits2_pos.
  - rewrite Pos2Z.inj_succ, (Pos2Z.inj_xI m).
    replace (Z.succ (Z.pos (digits2_pos m)) - 1)
      with (Z.succ (Z.pos (digits2_pos m) - 1)) by lia.
    rewrite !Z.pow_succ_r by lia.
    destruct IH as [IH1 IH2]. revert IH1 IH2.
    generalize (2 ^ (Z.pos (digits2_pos m) - 1)) (2 ^ Z.pos (digits2_pos m)).
    lia.
  - rewrite Pos2Z.inj_succ, (Pos2Z.inj_xO m).
    replace (Z.succ (Z.pos (digits2_pos m)) - 1)
      with (Z.succ (Z.pos (digits2_pos m) - 1)) by lia.
    rewrite !Z.pow_succ_r by lia.
    destruct IH as [IH1 IH2]. revert IH1 IH2.
    generalize (2 ^ (Z.pos (digits2_pos m) - 1)) (2 ^ Z.pos (digits2_pos m)).
    lia.
  - simpl. lia.
Qed.

Lemma iter_xO_value m k : Z.pos (Pos.iter xO m k) = Z.pos m * 2 ^ Z.pos k.
Proof.
  induction k as [|k IH] using Pos.peano_ind.
  - simpl. lia.
  - rewrite Pos.iter_succ, (Pos2Z.inj_xO (Pos.iter xO m k)), IH, Pos2Z.inj_succ,
      Z.pow_succ_r by lia.
    lia.
Qed.

Lemma iter_xO_digits m k :
  digits2_pos (Pos.iter xO m k) = (digits2_pos m + k)%positive.
Proof.
  induction k as [|k IH] using Pos.peano_ind.
  - simpl. lia.
  - rewrite Pos.iter_succ. simpl. rewrite IH. lia.
Qed.

Lemma binary_round_aux_exact s mz ez :
  digits2_pos mz = 53%positive → -1074 <= ez <= 971 →
  binary_round_aux prec emax s (Z.pos mz) ez loc_Exact = S754_finite s mz ez.
Proof.
  intros Hd He. unfold binary_round_aux, shr_fexp. simpl Zdigits2. rewrite Hd.
  assert (fexp prec emax (53 + ez) - ez = 0) as ->.
  { unfold fexp, SpecFloat.emin, prec, emax. lia. }
  simpl. rewrite Hd.
  assert (fexp prec emax (53 + ez) - ez = 0) as ->.
  { unfold fexp, SpecFloat.emin, prec, emax. lia. }
  simpl. destruct (ez <=? emax - prec) eqn:Hle; [done|].
  apply Z.leb_gt in Hle. unfold emax, prec in Hle. lia.
Qed.

Lemma binary_round_exact s m :
  Z.pos m < 2 ^ 53 →
  ∃ mz ez, binary_round prec emax s m 0 = S754_finite s mz ez ∧
           valid_binary (S754_finite s mz ez) = true ∧
           ez <= 0 ∧ Z.pos mz = Z.pos m * 2 ^ (- ez).
Proof.
  intros Hm. pose proof (digits2_pos_bounds m) as [Hlo _].
  assert (Z.pos (digits2_pos m) <= 53) as Hd.
  { destruct (Z.le_gt_cases (Z.pos (digits2_pos m)) 53) as [|Hgt]; [done|].
    assert (2 ^ 53 <= 2 ^ (Z.pos (digits2_pos m) - 1))
      by (apply Z.pow_le_mono_r; lia). lia. }
  unfold binary_round.
  assert (fexp prec emax (Z.pos (digits2_pos m) + 0)
          = Z.pos (digits2_pos m) - 53) as ->.
  { unfold fexp, SpecFloat.emin, prec, emax. lia. }
  unfold shl_align.
  destruct (Z.pos (digits2_pos m) - 53 - 0) as [|k|k] eqn:Hk; [|lia|].
  - exists m, 0. assert (digits2_pos m = 53%positive) as Hd53 by lia.
    rewrite binary_round_aux_exact by (done || lia).
    split; [done|]. split; [|split; [lia|simpl; lia]].
    unfold SpecFloat.valid_binary, bounded, canonical_mantissa. rewrite Hd53. done.
  - exists (Pos.iter xO m k), (Z.pos (digits2_pos m) - 53).
    assert (digits2_pos (Pos.iter xO m k) = 53%positive) as Hd53
      by (rewrite iter_xO_digits; lia).
    rewrite binary_round_aux_exact by (done || lia).
    split; [done|]. split; [|split; [lia|]].
    + unfold SpecFloat.valid_binary, bounded, canonical_mantissa. rewrite Hd53.
      apply andb_true_iff. split.
      * apply Z.eqb_eq. unfold fexp, SpecFloat.emin, prec, emax. lia.
      * apply Z.leb_le. unfold prec, emax. lia.
    + rewrite iter_xO_value. f_equal. f_equal. lia.
Qed.

Lemma float_of_int_exact n :
  Z.abs n <= 2 ^ 53 →
  ∃ f, float_of_int n = Ok f ∧ float_is_integer f n.
Proof.
  intros Hn. unfold float_of_int, float_is_integer.
  destruct n as [|m|m]; simpl binary_normalize.
  - eexists. split; [reflexivity|]. done.
  - destruct (Z.eq_dec (Z.pos m) (2 ^ 53)) as [Heq|Hne].
    + injection Heq as ->. eexists. split; [reflexivity|]. vm_compute. done.
    + destruct (binary_round_exact false m) as (mz & ez & -> & Hv & Hez & Hmz);
        [lia|].
      eexists. split; [reflexivity|]. rewrite Prim2SF_SF2Prim by done.
      rewrite (Z.max_r ez 0), (Z.max_l (- ez) 0) by lia. rewrite Z.pow_0_r, Z.mul_1_r. done.
  - destruct (Z.eq_dec (Z.pos m) (2 ^ 53)) as [Heq|Hne].
    + injection Heq as ->. eexists. split; [reflexivity|]. vm_compute. done.
    + destruct (binary_round_exact true m) as (mz & ez & -> & Hv & Hez & Hmz);
        [lia|].
      eexists. split; [reflexivity|]. rewrite Prim2SF_SF2Prim by done.
      rewrite (Z.max_r ez 0), (Z.max_l (- ez) 0) by lia. rewrite Z.pow_0_r, Z.mul_1_r, Hmz.
      rewrite <- (Pos2Z.opp_pos m). generalize (2 ^ (- ez)). lia.
Qed.

Lemma well_typed_number_float v :
  well_typed_number v → ∃ f, float v = Ok f ∧ same_number v f.
Proof.
  destruct v as [| |n|f| | |]; try done; intros H.
  - by apply float_of_int_exact.
  - by exists f.
Qed.

Lemma well_typed_item_unchanged item :
  well_typed_item item →
  ∃ b, validated_item item = Ok b ∧ unchanged_item item b.
Proof.
  intros (m & s & amount & rate & quantity & -> & Hn & Ha & Hta & Hr & Htr
          & Hq & Htq).
  destruct (well_typed_number_float _ Hta) as (fa & Hfa & Hsa).
  destruct (well_typed_number_float _ Htr) as (fr & Hfr & Hsr).
  destruct (well_typed_number_float _ Htq) as (fq & Hfq & Hsq).
  exists {| item_name := s; item_amount := fa;
            item_rate := Some fr; item_quantity := Some fq |}.
  split.
  - apply validated_item_Ok. exists s, fa, fr, fq.
    rewrite Hn, Ha, Hr, Hq. by simpl.
  - exists m, amount, rate, quantity, fr, fq. by simpl.
Qed.

Lemma well_typed_items_unchanged items :
  Forall well_typed_item items →
  ∃ vs, Forall2 (λ item v, validated_item item = Ok v) items vs ∧
        Forall2 unchanged_item items vs.
Proof.
  induction 1 as [|item items Hitem _ (vs & Hvs & Hun)].
  - exists []. by split.
  - destruct (well_typed_item_unchanged _ Hitem) as (b & Hb & Hunb).
    exists (b :: vs). split; by constructor.
Qed.

Lemma well_typed_page_unchanged page :
  well_typed_page page →
  ∃ pg, page_reads page pg ∧ unchanged_page page pg.
Proof.
  intros (m & s & items & -> & Hno & Hitems & Hwt).
  destruct (well_typed_items_unchanged _ Hwt) as (vs & Hvs & Hun).
  exists {| page_no := Text s; bill_items := vs |}. split.
  - exists items, (JStr s). unfold raw_items, get. rewrite Hitems, Hno. by simpl.
  - by exists m, s, items.
Qed.

Lemma well_typed_pages_unchanged pages :
  Forall well_typed_page pages →
  ∃ pgs, Forall2 page_reads pages pgs ∧ Forall2 unchanged_page pages pgs.
Proof.
  induction 1 as [|page pages Hpage _ (pgs & Hpgs & Hun)].
  - exists []. by split.
  - destruct (well_typed_page_unchanged _ Hpage) as (pg & Hpg & Hunpg).
    exists (pg :: pgs). split; by constructor.
Qed.

(** C8, amended.  A tree that is already well formed (each page a text
    [page_no] and a list [bill_items], each item its four fields, the name
    a text and each number a float or an integer of magnitude at most
    [2 ^ 53]) comes back with the same pages and the same items in the same
    order: the texts as they are, a float as the same float, an integer as
    the float of exactly that value. *)
Theorem well_formed_tree_keeps_values w request root pages :
  extraction_returns w request (JObj root) →
  root !! "pagewise_line_items" = Some (JList pages) →
  Forall well_typed_page pages →
  ∃ d, extract_bill_data w request = success d ∧
       Forall2 unchanged_page pages (pagewise_line_items d).
Proof.
  intros Hraw Hroot Hwt.
  destruct (well_typed_pages_unchanged _ Hwt) as (pgs & Hpgs & Hun).
  exists {| pagewise_line_items := pgs;
            total_item_count :=
              Z.of_nat (length (concat (bill_items <$> pgs)));
            reconciled_amount :=
              round2 (sum (item_amount <$> concat (bill_items <$> pgs))) |}.
  split; [|exact Hun].
  apply success_envelope, try_body_Ok. exists (JObj root).
  split; [done|]. apply reconcile_Ok. exists pages, pgs.
  split; [|split; [done|reflexivity]].
  unfold raw_pages, get. by rewrite Hroot.
Qed.

(** C8 as stated fails: an integer is converted by [float], and beyond
    [2 ^ 53] the value that comes back can be another number. *)
Lemma integer_amount_is_changed :
  extract_bill_data (answering (one_page [scan])) a_request
  = success (one_page_data scan_item) ∧
  float_is_integer (item_amount scan_item) (2 ^ 53) ∧
  ¬ float_is_integer (item_amount scan_item) (2 ^ 53 + 1).
Proof.
  split; [vm_compute; reflexivity|]. split; vm_compute; [done|discriminate].
Qed.

(** ** Rounding *)

Lemma round_half_even_tie n d k :
  0 < d → 2 * n = (2 * k + 1) * d →
  round_half_even n d = if Z.even k then k else k + 1.
Proof.
  intros Hd Htie. unfold round_half_even.
  set (h := n - k * d).
  assert (2 * h = d) as Hh by (unfold h; lia).
  assert (n = d * k + h) as Hn by (unfold h; lia).
  assert (0 <= h < d) as Hrange by lia.
  rewrite <- (Z.div_unique n d k h), <- (Z.mod_unique n d k h) by auto.
  by rewrite Hh, Z.compare_refl.
Qed.

Lemma round2_half_cent x neg k :
  on_half_cent x neg k →
  round2 x = cents_to_float neg (if Z.even k then k else k + 1).
Proof.
  intros (m & e & Hx & He & Htie). unfold round2. rewrite Hx.
  destruct (0 <=? e) eqn:Hle; [apply Z.leb_le in Hle; lia|].
  rewrite (round_half_even_tie _ _ k); [done| |lia].
  apply Z.pow_pos_nonneg; lia.
Qed.

(** C9.  The rounding of [reconciled_amount] is round-half-to-even: when
    the sum of the amounts lies half a cent above [k] cents, the reconciled
    amount is the double nearest to the even one of [k] and [k + 1] cents,
    with the sign of the sum. *)
Theorem half_cent_rounds_to_even w request d neg k :
  data (extract_bill_data w request) = Some d →
  on_half_cent (sum (item_amount <$> items_of d)) neg k →
  reconciled_amount d = cents_to_float neg (if Z.even k then k else k + 1).
Proof.
  intros (raw_data & _ & Hd)%data_Some%try_body_Ok Hhalf.
  apply reconcile_Ok in Hd as (pages & pgs & _ & _ & ->).
  by apply round2_half_cent.
Qed.

(** ** The model on concrete inputs *)

Example float_of_text :
  float (JStr " 12.50 ") = Ok 12.5%float ∧
  float (JStr "1_000") = Ok 1000%float ∧
  float (JStr "1e3") = Ok 1000%float ∧
  float (JStr "-inf") = Ok neg_infinity ∧
  float (JStr "") = Raise (ValueError "could not convert string to float: ''") ∧
  float (JStr "12,50")
  = Raise (ValueError "could not convert string to float: '12,50'").
Proof. repeat split; vm_compute; reflexivity. Qed.

Example float_of_integer :
  float (JInt 10) = Ok 10%float ∧
  float (JInt (2 ^ 53 + 1)) = Ok 9007199254740992%float ∧
  float (JInt (2 ^ 1024))
  = Raise (OverflowError "int too large to convert to float").
Proof. repeat split; vm_compute; reflexivity. Qed.

(** Digits and white space outside ASCII are read; a file separator is not
    white space at the ends of an ASCII text. *)
Example float_of_text_outside_ascii :
  float (JStr "１２") = Ok 12%float ∧
  float (JStr "٣.٥e٢") = Ok 350%float ∧
  float (JStr (String (ascii_of_nat 194) (String (ascii_of_nat 160) "12.5")))
  = Ok 12.5%float ∧
  float_of_string (String (ascii_of_nat 28) "12") = None ∧
  float_of_string "12é" = None.
Proof. repeat split; vm_compute; reflexivity. Qed.

Example float_nan_spellings :
  float (JFloat nan) = Ok nan ∧ float (JStr "nan") = Ok nan ∧
  float (JStr " -NaN ") = Ok nan.
Proof. repeat split; vm_compute; reflexivity. Qed.

Example nan_amount_response :
  extract_bill_data (answering nan_amount) a_request
  = success (page_data "1" [bandage_item; nan_item]) ∧
  reconciled_amount (page_data "1" [bandage_item; nan_item]) = nan.
Proof. split; vm_compute; reflexivity. Qed.

(** An integer amount of [2 ^ 1024] fails the request. *)
Example huge_integer_fails_request :
  extract_bill_data (answering huge_amount) a_request
  = failure "int too large to convert to float".
Proof. vm_compute. reflexivity. Qed.

(** Ties go to the even cent, not up: an eighth to twelve cents, three
    eighths to thirty-eight. *)
Example round2_ties :
  round2 0.125 = cents_to_float false 12 ∧
  round2 0.375 = cents_to_float false 38 ∧
  round2 (-0.125) = cents_to_float true 12 ∧
  round2 0.125 ≠ cents_to_float false 13.
Proof. repeat split; [vm_compute; reflexivity..|]. vm_compute. discriminate. Qed.

Example round2_fixed_points :
  round2 10 = 10%float ∧ round2 75.5 = 75.5%float ∧
  round2 infinity = infinity ∧ round2 nan = nan ∧ round2 (-0) = (-0)%float.
Proof. repeat split; vm_compute; reflexivity. Qed.

Example scenario_A_response :
  extract_bill_data (answering scenario_A) a_request
  = success (one_page_data paracetamol_item) ∧
  reconciled_amount (one_page_data paracetamol_item) = 50%float.
Proof. split; vm_compute; reflexivity. Qed.

Example scenario_C_response :
  ∃ d, extract_bill_data (answering scenario_C) a_request = success d ∧
       total_item_count d = 3 ∧ reconciled_amount d = 75.5%float.
Proof. eexists. split; [vm_compute; reflexivity|]. split; reflexivity. Qed.

Example scenario_D_response :
  extract_bill_data not_found a_request
  = failure ("Failed to download image: " ++
             "404 Client Error: Not Found for url: https://example.com/bill.png").
Proof. reflexivity. Qed.

(** ** The statements at concrete trees *)

Lemma reconciled_amount_is_rounded_item_sum_witness :
  data (extract_bill_data (answering scenario_B) a_request)
  = Some (one_page_data bandage_item) ∧
  reconciled_amount (one_page_data bandage_item)
  = round2 (sum (item_amount <$> items_of (one_page_data bandage_item))).
Proof.
  split; [vm_compute; reflexivity|].
  apply (proj1 reconciled_amount_is_rounded_item_sum
           (answering scenario_B) a_request).
  vm_compute. reflexivity.
Defined.

Lemma total_item_count_counts_every_item_witness :
  data (extract_bill_data (answering scenario_B) a_request)
  = Some (one_page_data bandage_item) ∧
  total_item_count (one_page_data bandage_item)
  = Z.of_nat (length (items_of (one_page_data bandage_item))).
Proof.
  split; [vm_compute; reflexivity|].
  apply (total_item_count_counts_every_item (answering scenario_B) a_request).
  vm_compute. reflexivity.
Defined.

Lemma default_only_for_absent_key_witness :
  validated_item bandage = Ok bandage_item ∧
  item_rate bandage_item = Some zero ∧
  ∃ t, extract_bill_data (answering unparseable_amount) a_request = failure t.
Proof.
  split; [vm_compute; reflexivity|]. split.
  - apply (proj1 default_only_for_absent_key
             (list_to_map [("item_name", JStr "Bandage");
                           ("item_amount", JInt 10)]) bandage_item).
    + vm_compute. reflexivity.
    + vm_compute. reflexivity.
  - apply (proj1 (proj2 default_only_for_absent_key)
             (answering unparseable_amount) a_request unparseable_amount
             (list_to_map [("item_name", JStr "Bandage");
                           ("item_amount", JStr "N/A")])).
    + exists (Decoded "image bytes"). split; reflexivity.
    + eexists _, _, _. split; [vm_compute; reflexivity|].
      split; [apply list_elem_of_here|].
      split; [vm_compute; reflexivity|apply list_elem_of_here].
    + right. exists "item_amount", (JStr "N/A").
      eexists. split; [apply list_elem_of_here|].
      split; vm_compute; reflexivity.
Defined.

Lemma absent_sequence_is_empty_witness :
  extract_bill_data (answering (JObj ∅)) a_request
  = success {| pagewise_line_items := []; total_item_count := 0;
               reconciled_amount := zero |} ∧
  extract_bill_data (answering null_pages) a_request
  = failure (not_iterable JNull).
Proof.
  split.
  - apply (proj1 absent_sequence_is_empty (answering (JObj ∅)) a_request ∅).
    + exists (Decoded "image bytes"). split; reflexivity.
    + vm_compute. reflexivity.
  - apply (proj1 (proj2 (proj2 absent_sequence_is_empty))
             (answering null_pages) a_request
             (list_to_map [("pagewise_line_items", JNull)]) JNull).
    + exists (Decoded "image bytes"). split; reflexivity.
    + vm_compute. reflexivity.
    + exact I.
Defined.

Lemma failure_is_reported_in_envelope_witness :
  requests_get not_found (document a_request)
  = Threw "404 Client Error: Not Found for url: https://example.com/bill.png" ∧
  extract_bill_data not_found a_request
  = failure "Failed to download image: 404 Client Error: Not Found for url: https://example.com/bill.png" ∧
  extract_bill_data (answering unparseable_amount) a_request
  = failure "could not convert string to float: 'N/A'".
Proof.
  split; [reflexivity|]. split.
  - apply (proj1 failure_is_reported_in_envelope not_found a_request).
    reflexivity.
  - apply (proj1 (proj2 failure_is_reported_in_envelope)
             (answering unparseable_amount) a_request unparseable_amount
             (ValueError "could not convert string to float: 'N/A'")).
    + exists (Decoded "image bytes"). split; reflexivity.
    + vm_compute. reflexivity.
Defined.

Lemma absent_rate_and_quantity_default_witness :
  validated_item bandage = Ok bandage_item ∧
  item_rate bandage_item = Some zero ∧ item_quantity bandage_item = Some one.
Proof.
  split; [vm_compute; reflexivity|].
  apply (proj1 absent_rate_and_quantity_default
           (list_to_map [("item_name", JStr "Bandage");
                         ("item_amount", JInt 10)]) bandage_item);
    vm_compute; reflexivity.
Defined.

Lemma well_formed_tree_keeps_values_witness :
  ∃ d, extract_bill_data (answering scenario_A) a_request = success d ∧
       Forall2 unchanged_page
         [dict [("page_no", JStr "1"); ("bill_items", JList [paracetamol])]]
         (pagewise_line_items d).
Proof.
  apply (well_formed_tree_keeps_values (answering scenario_A) a_request
           (list_to_map
              [("pagewise_line_items",
                JList [dict [("page_no", JStr "1");
                             ("bill_items", JList [paracetamol])]])])
           [dict [("page_no", JStr "1"); ("bill_items", JList [paracetamol])]]).
  - exists (Decoded "image bytes"). split; reflexivity.
  - vm_compute. reflexivity.
  - constructor; [|constructor].
    eexists _, "1", [paracetamol]. split; [reflexivity|].
    split; [vm_compute; reflexivity|]. split; [vm_compute; reflexivity|].
    constructor; [|constructor].
    eexists _, "Paracetamol", (JFloat 50), (JFloat 25), (JInt 2).
    split; [reflexivity|].
    split; [vm_compute; reflexivity|]. split; [vm_compute; reflexivity|].
    split; [exact I|]. split; [vm_compute; reflexivity|]. split; [exact I|].
    split; [vm_compute; reflexivity|]. vm_compute. discriminate.
Defined.

Lemma half_cent_rounds_to_even_witness :
  data (extract_bill_data (answering one_eighth) a_request)
  = Some (one_page_data syringe_item) ∧
  on_half_cent (sum (item_amount <$> items_of (one_page_data syringe_item)))
               false 12 ∧
  reconciled_amount (one_page_data syringe_item) = cents_to_float false 12.
Proof.
  assert (on_half_cent
            (sum (item_amount <$> items_of (one_page_data syringe_item)))
            false 12) as Hhalf.
  { exists 4503599627370496%positive, (-55).
    split; [vm_compute; reflexivity|]. split; [lia|]. vm_compute. reflexivity. }
  split; [vm_compute; reflexivity|]. split; [exact Hhalf|].
  change (cents_to_float false 12)
    with (cents_to_float false (if Z.even 12 then 12 else 12 + 1)).
  apply (half_cent_rounds_to_even (answering one_eighth) a_request).
  - vm_compute. reflexivity.
  - exact Hhalf.
Defined.

Lemma null_field_fails_request_witness :
  ∃ t, extract_bill_data (answering null_rate) a_request = failure t.
Proof.
  apply (null_field_fails_request (answering null_rate) a_request null_rate
           (list_to_map [("item_name", JStr "Gauze");
                         ("item_amount", JFloat 5); ("item_rate", JNull)])
           "item_rate").
  - exists (Decoded "image bytes"). split; reflexivity.
  - eexists _, _, _. split; [vm_compute; reflexivity|].
    split; [apply list_elem_of_here|].
    split; [vm_compute; reflexivity|apply list_elem_of_here].
  - apply list_elem_of_In. simpl. tauto.
  - vm_compute. reflexivity.
Defined.

(** * Further properties of the handler and its helpers *)

(** ** The stages before the reconciliation *)

(** X1.  [download_image] returns the decoded image exactly when the fetch
    and the decoder both return, and whatever fails it raises the one
    [HTTPException] of status 400 whose detail names the cause. *)
Theorem download_image_outcomes w url :
  (∀ img, download_image w url = Ok img ↔
          ∃ content, requests_get w url = Returned content ∧
                     Image_open w content = Returned img) ∧
  (∀ e, download_image w url = Raise e →
        ∃ cause,
          e = HTTPException 400 ("Failed to download image: " ++ cause) ∧
          (requests_get w url = Threw cause ∨
           ∃ content, requests_get w url = Returned content ∧
                      Image_open w content = Threw cause)).
Proof.
  unfold download_image. split.
  - intros img. destruct (requests_get w url) as [content|cause].
    + destruct (Image_open w content) as [img'|cause] eqn:Hopen.
      * split; [intros [= <-]; by exists content|].
        intros (c & [= <-] & H). congruence.
      * split; [discriminate|]. intros (c & [= <-] & H). congruence.
    + split; [discriminate|]. by intros (c & [=] & _).
  - intros e. destruct (requests_get w url) as [content|cause].
    + destruct (Image_open w content) as [img'|cause] eqn:Hopen;
        [discriminate|].
      intros [= <-]. exists cause. split; [done|]. right. by exists content.
    + intros [= <-]. exists cause. split; [done|]. by left.
Qed.

(** X2.  A document that is fetched and cannot be decoded as an image gives
    the failure envelope with the decoder's message, whatever the model
    would have answered. *)
Theorem decode_failure_envelope w request content cause :
  requests_get w (document request) = Returned content →
  Image_open w content = Threw cause →
  extract_bill_data w request
  = failure ("Failed to download image: " ++ cause).
Proof.
  intros Hget Hopen.
  unfold extract_bill_data, try_body, download_image.
  by rewrite Hget, Hopen.
Qed.

(** X3.  When the model call or the parsing of its reply throws, the
    envelope carries the fixed text of [get_gemini_extraction]; the cause
    does not reach the caller. *)
Theorem model_failure_hides_cause w request image cause :
  download_image w (document request) = Ok image →
  generate_content w image = Threw cause →
  extract_bill_data w request
  = failure "Failed to process image with AI model.".
Proof.
  intros Himg Hgen.
  unfold extract_bill_data, try_body, get_gemini_extraction.
  rewrite Himg. simpl. by rewrite Hgen.
Qed.

(** X4.  The [try] block fails in one of three ways only: the download
    raised its [HTTPException] 400, the extraction raised its
    [HTTPException] 500, or both returned and the reconciliation raised an
    exception that is no [HTTPException]. *)
Theorem failure_causes w request e :
  try_body w request = Raise e →
  (∃ cause, e = HTTPException 400 ("Failed to download image: " ++ cause)) ∨
  e = HTTPException 500 "Failed to process image with AI model." ∨
  (uncategorized e ∧
   ∃ raw_data, extraction_returns w request raw_data ∧
               reconcile raw_data = Raise e).
Proof.
  unfold try_body, extraction_returns.
  destruct (download_image w (document request)) as [image|e'] eqn:Himg; simpl.
  - destruct (get_gemini_extraction w image) as [raw_data|e'] eqn:Hraw; simpl.
    + intros H. right. right. split; [by apply (reconcile_Raise _ _ H)|].
      exists raw_data. split; [by exists image|done].
    + intros [= <-]. right. left. unfold get_gemini_extraction in Hraw.
      by destruct (generate_content w image); [|injection Hraw as <-].
  - intros [= <-]. left. unfold download_image in Himg.
    destruct (requests_get w (document request)) as [content|cause].
    + destruct (Image_open w content) as [img|cause]; [discriminate|].
      injection Himg as <-. by exists cause.
    + injection Himg as <-. by exists cause.
Qed.

(** X5.  The endpoint returns the success envelope with [d] exactly when
    the download and the extraction return a tree and the reconciliation of
    that tree returns [d]. *)
Theorem success_iff_all_stages w request d :
  extract_bill_data w request = success d ↔
  ∃ raw_data, extraction_returns w request raw_data ∧
              reconcile raw_data = Ok d.
Proof.
  rewrite <- try_body_Ok. split.
  - intros H. apply data_Some. by rewrite H.
  - apply success_envelope.
Qed.

(** ** The loops of the reconciliation *)

Lemma for_each_first_Raise {S X : Type} (body : S → X → result S)
    pre x post s s' e :
  for_each body pre s = Ok s' → body s' x = Raise e →
  for_each body (pre ++ x :: post) s = Raise e.
Proof.
  intros Hpre Hx. rewrite for_each_app, Hpre. simpl. by rewrite Hx.
Qed.

Lemma item_loop_first_Raise before item after vs st e :
  Forall2 (λ i v, validated_item i = Ok v) before vs →
  validated_item item = Raise e →
  for_each item_body (before ++ item :: after) st = Raise e.
Proof.
  intros Hvs He. eapply for_each_first_Raise.
  - apply item_loop_Ok. by exists vs.
  - unfold item_body. by rewrite He.
Qed.

Lemma page_loop_first_Raise before page after pgs st e :
  Forall2 page_reads before pgs →
  (∀ st', page_body st' page = Raise e) →
  for_each page_body (before ++ page :: after) st = Raise e.
Proof.
  intros Hpgs He. eapply for_each_first_Raise; [|apply He].
  apply page_loop_Ok. by exists pgs.
Qed.

Lemma reconcile_first_Raise raw_data before page after pgs e :
  raw_pages raw_data = Ok (before ++ page :: after)%list →
  Forall2 page_reads before pgs →
  (∀ st, page_body st page = Raise e) →
  reconcile raw_data = Raise e.
Proof.
  intros Hpages Hpgs He. unfold raw_pages in Hpages. steps Hpages.
  unfold reconcile. rewrite Ha. simpl. rewrite Hpages. simpl.
  by rewrite (page_loop_first_Raise _ _ _ pgs _ e).
Qed.

Lemma uncategorized_envelope w request raw_data e :
  extraction_returns w request raw_data → reconcile raw_data = Raise e →
  extract_bill_data w request = failure (str_exn e).
Proof.
  intros Hraw He. destruct (reconcile_Raise _ _ He) as [Hu _].
  rewrite (failure_envelope _ _ e) by by eapply reconcile_Raise_envelope.
  by destruct e.
Qed.

(** X6.  The error of the envelope is that of the first element, in the
    order of the document, on which sanitizing raises: the pages before it
    and the items before it on its page were read, and what comes after it
    is never looked at. *)
Theorem first_failure_is_reported
    w request raw_data before page after pgs items_before item items_after vs e :
  extraction_returns w request raw_data →
  raw_pages raw_data = Ok (before ++ page :: after)%list →
  Forall2 page_reads before pgs →
  raw_items page = Ok (items_before ++ item :: items_after)%list →
  Forall2 (λ i v, validated_item i = Ok v) items_before vs →
  validated_item item = Raise e →
  extract_bill_data w request = failure (str_exn e).
Proof.
  intros Hraw Hpages Hpgs Hitems Hvs He.
  apply (uncategorized_envelope _ _ raw_data); [done|].
  eapply reconcile_first_Raise; [done..|].
  intros st. unfold raw_items in Hitems. steps Hitems.
  unfold page_body. rewrite Ha. simpl. rewrite Hitems. simpl.
  by rewrite (item_loop_first_Raise _ _ _ vs _ e).
Qed.

(** X7.  A page that is not a mapping, and an item that is not a mapping,
    fail the request with the [AttributeError] that names the type of the
    value, when nothing before them has raised. *)
Theorem non_mapping_element_fails w request raw_data before page after pgs :
  extraction_returns w request raw_data →
  raw_pages raw_data = Ok (before ++ page :: after)%list →
  Forall2 page_reads before pgs →
  ((∀ m, page ≠ JObj m) →
   extract_bill_data w request
   = failure ("'" ++ type_name page ++ "' object has no attribute 'get'")) ∧
  (∀ items_before item items_after vs,
     raw_items page = Ok (items_before ++ item :: items_after)%list →
     Forall2 (λ i v, validated_item i = Ok v) items_before vs →
     (∀ m, item ≠ JObj m) →
     extract_bill_data w request
     = failure ("'" ++ type_name item ++ "' object has no attribute 'get'")).
Proof.
  intros Hraw Hpages Hpgs. split.
  - intros Hpage.
    apply (uncategorized_envelope _ _ raw_data
             (AttributeError
                ("'" ++ type_name page ++ "' object has no attribute 'get'"))
             Hraw).
    eapply reconcile_first_Raise; [done..|].
    intros st. destruct page; try done. by destruct (Hpage m).
  - intros items_before item items_after vs Hitems Hvs Hitem.
    apply (uncategorized_envelope _ _ raw_data
             (AttributeError
                ("'" ++ type_name item ++ "' object has no attribute 'get'"))
             Hraw).
    eapply reconcile_first_Raise; [done..|].
    intros st. unfold raw_items in Hitems. steps Hitems.
    unfold page_body. rewrite Ha. simpl. rewrite Hitems. simpl.
    rewrite (item_loop_first_Raise _ _ _ vs _
               (AttributeError
                  ("'" ++ type_name item ++ "' object has no attribute 'get'")));
      [done..|].
    destruct item; try done. by destruct (Hitem m).
Qed.

(** X8.  A text or a mapping where the list of pages should be is walked
    by its characters or its keys: when it is empty the result is the empty
    one, otherwise the first character or key, a text, fails the request. *)
Theorem text_or_mapping_as_pages w request root v :
  extraction_returns w request (JObj root) →
  root !! "pagewise_line_items" = Some v →
  (v = JStr "" ∨ v = JObj ∅ →
   extract_bill_data w request
   = success {| pagewise_line_items := []; total_item_count := 0;
                reconciled_amount := zero |}) ∧
  ((∃ s, v = JStr s ∧ s ≠ "") ∨ (∃ m, v = JObj m ∧ m ≠ ∅) →
   extract_bill_data w request
   = failure "'str' object has no attribute 'get'").
Proof.
  intros Hraw Hv. split.
  - intros Hempty. apply success_envelope, try_body_Ok.
    exists (JObj root). split; [done|]. unfold reconcile, get. rewrite Hv.
    destruct Hempty as [-> | ->]; simpl; [done|].
    by rewrite map_to_list_empty.
  - intros Hnonempty.
    assert (∃ k rest, iter v = Ok (JStr k :: rest)) as (k & rest & Hiter).
    { destruct Hnonempty as [(s & -> & Hs)|(m & -> & Hm)]; simpl.
      - destruct s as [|c s]; [done|]. simpl. eauto.
      - destruct (map_to_list m) as [|[k x] l] eqn:Hl.
        + by apply map_to_list_empty_iff in Hl.
        + simpl. eauto. }
    apply (uncategorized_envelope _ _ (JObj root)
             (AttributeError "'str' object has no attribute 'get'") Hraw).
    apply (reconcile_first_Raise _ [] (JStr k) rest []); [|constructor|done].
    unfold raw_pages, get. rewrite Hv. simpl. by rewrite Hiter.
Qed.

Lemma page_reads_mapping page pg :
  page_reads page pg →
  ∃ m, page = JObj m ∧
       page_no pg = str (default (JStr "1") (m !! "page_no")).
Proof.
  intros (items & v & Hitems & _ & Hv & Hno).
  destruct page as [| | | | | |m]; try discriminate.
  exists m. split; [done|]. injection Hv as <-. done.
Qed.

(** X9.  In a successful response the [page_no] of each page is the text
    of the value the tree holds: a text as it is, an absent key as ["1"],
    a null as ["None"] (the default stands in for an absent key only), an
    integer in decimal. *)
Theorem page_no_is_text_of_raw_value w request d :
  data (extract_bill_data w request) = Some d →
  ∃ raw_data pages,
    extraction_returns w request raw_data ∧
    raw_pages raw_data = Ok pages ∧
    Forall2 (λ page pg, ∃ m,
               page = JObj m ∧
               page_no pg =
                 match m !! "page_no" with
                 | None => Text "1"
                 | Some (JStr s) => Text s
                 | Some JNull => Text "None"
                 | Some (JBool b) => Text (if b then "True" else "False")
                 | Some (JInt n) => Text (NilZero.string_of_int (Z.to_int n))
                 | Some v => StrOf v
                 end)
            pages (pagewise_line_items d).
Proof.
  intros (raw_data & Hraw & Hd)%data_Some%try_body_Ok.
  apply reconcile_Ok in Hd as (pages & pgs & Hpages & Hpgs & ->).
  exists raw_data, pages. do 2 (split; [done|]). simpl.
  eapply Forall2_impl; [exact Hpgs|].
  intros page pg (m & -> & ->)%page_reads_mapping. exists m. split; [done|].
  by destruct (m !! "page_no") as [[]|].
Qed.

Lemma reconcile_list root pages d :
  root !! "pagewise_line_items" = Some (JList pages) →
  reconcile (JObj root) = Ok d ↔
  ∃ pgs, Forall2 page_reads pages pgs ∧
    d = {| pagewise_line_items := pgs;
           total_item_count :=
             Z.of_nat (length (concat (bill_items <$> pgs)));
           reconciled_amount :=
             round2 (sum (item_amount <$> concat (bill_items <$> pgs))) |}.
Proof.
  intros Hroot. rewrite reconcile_Ok. unfold raw_pages, get. rewrite Hroot.
  simpl. split.
  - intros (pages' & pgs & [= <-] & Hpgs & ->). by exists pgs.
  - intros (pgs & Hpgs & ->). by exists pages, pgs.
Qed.

(** X10.  Reconciling the pages of two trees put one after the other
    succeeds exactly when reconciling each tree does; the pages and the
    flat item list are then the concatenations, the count is the sum of the
    two counts, and the amount is the rounded sum over both item lists. *)
Theorem reconcile_concatenated_pages root1 root2 root pages1 pages2 d :
  root1 !! "pagewise_line_items" = Some (JList pages1) →
  root2 !! "pagewise_line_items" = Some (JList pages2) →
  root !! "pagewise_line_items" = Some (JList (pages1 ++ pages2)) →
  reconcile (JObj root) = Ok d ↔
  ∃ d1 d2,
    reconcile (JObj root1) = Ok d1 ∧ reconcile (JObj root2) = Ok d2 ∧
    d = {| pagewise_line_items :=
             (pagewise_line_items d1 ++ pagewise_line_items d2)%list;
           total_item_count := total_item_count d1 + total_item_count d2;
           reconciled_amount :=
             round2 (sum (item_amount <$> (items_of d1 ++ items_of d2)%list)) |}.
Proof.
  intros H1 H2 H. rewrite (reconcile_list _ _ _ H). split.
  - intros (pgs & (pgs1 & pgs2 & Hp1 & Hp2 & ->)%Forall2_app_inv_l & ->).
    eexists _, _. split; [by apply (reconcile_list _ _ _ H1); eexists|].
    split; [by apply (reconcile_list _ _ _ H2); eexists|].
    unfold items_of. simpl.
    assert (concat (bill_items <$> (pgs1 ++ pgs2)%list)
            = (concat (bill_items <$> pgs1) ++ concat (bill_items <$> pgs2))%list)
      as -> by (by rewrite fmap_app, concat_app).
    by rewrite length_app, Nat2Z.inj_add.
  - intros (d1 & d2 & (pgs1 & Hp1 & ->)%(reconcile_list _ _ _ H1)
                     & (pgs2 & Hp2 & ->)%(reconcile_list _ _ _ H2) & ->).
    exists (pgs1 ++ pgs2)%list. split; [by apply Forall2_app|].
    unfold items_of. simpl.
    assert (concat (bill_items <$> (pgs1 ++ pgs2)%list)
            = (concat (bill_items <$> pgs1) ++ concat (bill_items <$> pgs2))%list)
      as -> by (by rewrite fmap_app, concat_app).
    by rewrite length_app, Nat2Z.inj_add.
Qed.

Lemma item_of_response raw_data d b :
  reconcile raw_data = Ok d → b ∈ items_of d →
  ∃ m, has_item raw_data (JObj m) ∧ validated_item (JObj m) = Ok b.
Proof.
  intros (pages & pgs & Hpages & Hpgs & ->)%reconcile_Ok Hb.
  unfold items_of in Hb. simpl in Hb.
  apply list_elem_of_In, in_concat in Hb as (l & Hl & Hb).
  apply list_elem_of_In, list_elem_of_fmap in Hl as (pg & -> & Hpg).
  apply list_elem_of_lookup in Hpg as [i Hi].
  destruct (Forall2_lookup_r _ _ _ _ _ Hpgs Hi)
    as (page & Hpage & items & v & Hitems & Hvs & _).
  apply list_elem_of_In, list_elem_of_lookup in Hb as [j Hj].
  destruct (Forall2_lookup_r _ _ _ _ _ Hvs Hj) as (item & Hitem & Hv).
  destruct item as [| | | | | |m]; try discriminate.
  exists m. split; [|done]. exists pages, page, items.
  split; [done|]. split; [by eapply list_elem_of_lookup_2|].
  split; [done|]. by eapply list_elem_of_lookup_2.
Qed.

(** X11.  Every item of a successful response comes from a mapping the
    inner loop met in the tree, and its [item_rate] and [item_quantity] are
    floats: the two optional fields of the model are never left empty. *)
Theorem response_items_are_complete w request d b :
  data (extract_bill_data w request) = Some d → b ∈ items_of d →
  ∃ raw_data m rate quantity,
    extraction_returns w request raw_data ∧
    has_item raw_data (JObj m) ∧ validated_item (JObj m) = Ok b ∧
    item_rate b = Some rate ∧ item_quantity b = Some quantity.
Proof.
  intros (raw_data & Hraw & Hd)%data_Some%try_body_Ok Hb.
  destruct (item_of_response _ _ _ Hd Hb) as (m & Hitem & Hv).
  pose proof Hv as (s & amount & rate & quantity & _ & _ & _ & _ & ->)
    %validated_item_Ok.
  exists raw_data, m, rate, quantity. done.
Qed.

(** X12.  The count of a successful response is zero exactly when no page
    has an item, and the reconciled amount is then [0.0]. *)
Theorem no_items_no_amount w request d :
  data (extract_bill_data w request) = Some d →
  (total_item_count d = 0 ↔ items_of d = []) ∧
  (items_of d = [] → reconciled_amount d = zero).
Proof.
  intros (raw_data & _ & Hd)%data_Some%try_body_Ok.
  apply reconcile_Ok in Hd as (pages & pgs & _ & _ & ->).
  unfold items_of. simpl. split.
  - split.
    + intros H. apply length_zero_iff_nil. lia.
    + by intros ->.
  - by intros ->.
Qed.

(** ** Sum and rounding *)

Lemma add_nan_r x : (x + nan)%float = nan.
Proof.
  apply Prim2SF_inj. rewrite add_spec.
  change (Prim2SF nan) with S754_nan. by destruct (Prim2SF x).
Qed.

Lemma add_nan_l x : (nan + x)%float = nan.
Proof.
  apply Prim2SF_inj. rewrite add_spec.
  change (Prim2SF nan) with S754_nan. done.
Qed.

Lemma fold_add_nan xs : fold_left PrimFloat.add xs nan = nan.
Proof. induction xs as [|x xs IH]; simpl; [done|]. by rewrite add_nan_l. Qed.

Lemma sum_nan xs : nan ∈ xs → sum xs = nan.
Proof.
  unfold sum. generalize zero.
  induction xs as [|x xs IH]; intros acc Hin; [by inversion Hin|].
  simpl. apply elem_of_cons in Hin as [<-|Hin].
  - by rewrite add_nan_r, fold_add_nan.
  - by apply IH.
Qed.

Lemma add_zero_l x : x ≠ neg_zero → (zero + x)%float = x.
Proof.
  intros Hx. apply Prim2SF_inj. rewrite add_spec.
  change (Prim2SF zero) with (S754_zero false).
  destruct (Prim2SF x) as [[]| | |] eqn:H; try done.
  destruct Hx. by apply Prim2SF_inj.
Qed.

Lemma validated_item_with_amount m b v amount :
  validated_item (JObj m) = Ok b → float v = Ok amount →
  validated_item (with_amount v m)
  = Ok {| item_name := item_name b; item_amount := amount;
          item_rate := item_rate b; item_quantity := item_quantity b |}.
Proof.
  intros (s & a & r & q & Hn & _ & Hr & Hq & ->)%validated_item_Ok Hv.
  apply validated_item_Ok. exists s, amount, r, q.
  rewrite lookup_insert_eq, !lookup_insert_ne by done. by simpl.
Qed.

(** X13.  Putting a NaN (the JSON literal [NaN], or a text that [float]
    reads as NaN) in place of the amount of any one item of a tree that
    reconciles gives a tree that reconciles too: the request does not
    fail, the count is the same and the reconciled amount is NaN. *)
Theorem nan_amount_makes_total_nan
    root before p after items_before m items_after v d :
  root !! "pagewise_line_items" = Some (JList (before ++ JObj p :: after)) →
  p !! "bill_items" = Some (JList (items_before ++ JObj m :: items_after)) →
  reconcile (JObj root) = Ok d →
  float v = Ok nan →
  let poisoned :=
    with_pages
      (before
       ++ with_items (items_before ++ with_amount v m :: items_after) p
       :: after) root in
  ∃ d',
    reconcile poisoned = Ok d' ∧
    total_item_count d' = total_item_count d ∧
    reconciled_amount d' = nan ∧
    ∀ w request,
      extraction_returns w request poisoned →
      extract_bill_data w request = success d'.
Proof.
  intros Hroot Hp Hd Hv poisoned.
  apply (reconcile_list _ _ _ Hroot) in Hd as (pgs & Hpgs & ->).
  apply Forall2_app_inv_l in Hpgs as (pgs1 & rest & Hpgs1 & Hrest & ->).
  apply Forall2_cons_inv_l in Hrest as (pg & pgs2 & Hpg & Hpgs2 & ->).
  destruct Hpg as (items & no & Hitems & Hvs & Hno & Hpn).
  unfold raw_items, get in Hitems. rewrite Hp in Hitems. simpl in Hitems.
  injection Hitems as <-.
  apply Forall2_app_inv_l in Hvs as (vs1 & rest' & Hvs1 & Hrest' & Hbi).
  apply Forall2_cons_inv_l in Hrest' as (b & vs2 & Hb & Hvs2 & ->).
  pose proof (validated_item_with_amount _ _ _ _ Hb Hv) as Hb'.
  set (b' := {| item_name := item_name b; item_amount := nan;
                item_rate := item_rate b; item_quantity := item_quantity b |})
    in Hb'.
  set (pg' := {| page_no := page_no pg; bill_items := vs1 ++ b' :: vs2 |}).
  assert (page_reads
            (with_items (items_before ++ with_amount v m :: items_after) p)
            pg') as Hpg'.
  { exists (items_before ++ with_amount v m :: items_after)%list, no.
    unfold raw_items, with_items, get.
    rewrite lookup_insert_eq, lookup_insert_ne by done. simpl.
    split; [done|]. split; [|done].
    apply Forall2_app; [done|]. by constructor. }
  assert (reconcile poisoned
          = Ok {| pagewise_line_items := (pgs1 ++ pg' :: pgs2)%list;
                  total_item_count :=
                    Z.of_nat (length (concat (bill_items
                                                <$> (pgs1 ++ pg' :: pgs2)%list)));
                  reconciled_amount :=
                    round2 (sum (item_amount
                                   <$> concat (bill_items
                                                 <$> (pgs1 ++ pg' :: pgs2)%list))) |})
    as Hd'.
  { apply (reconcile_list _ (before
             ++ with_items (items_before ++ with_amount v m :: items_after) p
             :: after)%list); [apply lookup_insert_eq|].
    eexists. split; [|reflexivity].
    apply Forall2_app; [done|]. by constructor. }
  eexists. split; [exact Hd'|]. simpl. split; [|split].
  - rewrite !fmap_app, !concat_app, !fmap_cons. simpl.
    by rewrite Hbi, !length_app.
  - rewrite sum_nan; [done|].
    apply list_elem_of_fmap. exists b'. split; [done|].
    rewrite fmap_app, concat_app, fmap_cons. simpl.
    rewrite !elem_of_app, elem_of_cons. tauto.
  - intros w request Hraw. apply success_envelope, try_body_Ok. eauto.
Qed.

(** X14.  A successful response with a single item reports the amount of
    that item rounded to two places; the one exception is the amount
    [-0.0], which the sum from the start value [0] turns into [0.0]. *)
Theorem single_item_amount w request d b :
  data (extract_bill_data w request) = Some d →
  items_of d = [b] →
  (item_amount b ≠ neg_zero → reconciled_amount d = round2 (item_amount b)) ∧
  (item_amount b = neg_zero → reconciled_amount d = zero).
Proof.
  intros (raw_data & _ & Hd)%data_Some%try_body_Ok.
  apply reconcile_Ok in Hd as (pages & pgs & _ & _ & ->).
  unfold items_of. simpl. intros ->. unfold sum. simpl. split.
  - intros Hb. by rewrite add_zero_l.
  - by intros ->.
Qed.

Lemma round_half_even_nearest n d :
  0 < d → 0 <= n →
  0 <= round_half_even n d ∧
  2 * Z.abs (round_half_even n d * d - n) <= d.
Proof.
  intros Hd Hn. unfold round_half_even.
  pose proof (Z.div_mod n d ltac:(lia)) as Hdiv.
  pose proof (Z.mod_pos_bound n d Hd) as Hmod.
  assert (0 <= n / d) as Hq by (apply Z.div_pos; lia).
  destruct (Z.compare_spec (2 * (n mod d)) d) as [Heq|Hlt|Hgt];
    [destruct (Z.even (n / d))|..]; split; nia.
Qed.

(** X15.  [round(x, 2)] of a finite [x] of magnitude [m * 2 ^ e] with
    [e < 0] is the double nearest to a whole number of cents, and that
    number of cents is within half a cent of the exact magnitude of [x]. *)
Theorem round2_is_within_half_a_cent x s m e :
  Prim2SF x = S754_finite s m e → e < 0 →
  ∃ cents,
    0 <= cents ∧ round2 x = cents_to_float s cents ∧
    2 * Z.abs (cents * 2 ^ (- e) - 100 * Z.pos m) <= 2 ^ (- e).
Proof.
  intros Hx He. unfold round2. rewrite Hx.
  destruct (0 <=? e) eqn:Hle; [apply Z.leb_le in Hle; lia|].
  assert (0 < 2 ^ (- e)) as Hd by (apply Z.pow_pos_nonneg; lia).
  destruct (round_half_even_nearest (100 * Z.pos m) (2 ^ (- e)) Hd ltac:(lia))
    as [Hpos Hnear].
  eexists. split; [exact Hpos|]. split; [reflexivity|exact Hnear].
Qed.

(** ** The further properties at concrete worlds and trees *)

Lemma download_image_outcomes_witness :
  download_image undecodable "https://example.com/page.html"
  = Raise (HTTPException 400
             ("Failed to download image: " ++ "cannot identify image file")) ∧
  ∃ cause,
    HTTPException 400
      ("Failed to download image: " ++ "cannot identify image file")
    = HTTPException 400 ("Failed to download image: " ++ cause) ∧
    (requests_get undecodable "https://example.com/page.html" = Threw cause ∨
     ∃ content,
       requests_get undecodable "https://example.com/page.html"
       = Returned content ∧
       Image_open undecodable content = Threw cause).
Proof.
  split; [reflexivity|].
  apply (proj2 (download_image_outcomes undecodable
                  "https://example.com/page.html")).
  reflexivity.
Defined.

Lemma decode_failure_envelope_witness :
  extract_bill_data undecodable a_request
  = failure ("Failed to download image: " ++ "cannot identify image file").
Proof.
  apply (decode_failure_envelope undecodable a_request "<html>"
           "cannot identify image file"); reflexivity.
Defined.

Lemma model_failure_hides_cause_witness :
  extract_bill_data (model_down "Expecting value: line 1 column 1 (char 0)")
                    a_request
  = failure "Failed to process image with AI model.".
Proof.
  apply (model_failure_hides_cause
           (model_down "Expecting value: line 1 column 1 (char 0)") a_request
           (Decoded "image bytes")
           "Expecting value: line 1 column 1 (char 0)"); reflexivity.
Defined.

Lemma failure_causes_witness :
  try_body (answering null_pages) a_request
  = Raise (TypeError (not_iterable JNull)) ∧
  ((∃ cause, TypeError (not_iterable JNull)
             = HTTPException 400 ("Failed to download image: " ++ cause)) ∨
   TypeError (not_iterable JNull)
   = HTTPException 500 "Failed to process image with AI model." ∨
   (uncategorized (TypeError (not_iterable JNull)) ∧
    ∃ raw_data, extraction_returns (answering null_pages) a_request raw_data ∧
                reconcile raw_data = Raise (TypeError (not_iterable JNull)))).
Proof.
  split; [vm_compute; reflexivity|].
  apply (failure_causes (answering null_pages) a_request).
  vm_compute. reflexivity.
Defined.

Lemma success_iff_all_stages_witness :
  extract_bill_data (answering scenario_B) a_request
  = success (one_page_data bandage_item).
Proof.
  apply (proj2 (success_iff_all_stages (answering scenario_B) a_request
                  (one_page_data bandage_item))).
  exists scenario_B. split.
  - exists (Decoded "image bytes"). split; reflexivity.
  - vm_compute. reflexivity.
Defined.

Lemma first_failure_is_reported_witness :
  extract_bill_data (answering good_bad_bad) a_request
  = failure (str_exn (ValueError "could not convert string to float: 'N/A'")).
Proof.
  apply (first_failure_is_reported (answering good_bad_bad) a_request
           good_bad_bad []
           (page_of_items "1" [bandage; bandage_no_amount; gauze_null_rate])
           [] [] [bandage] bandage_no_amount [gauze_null_rate] [bandage_item]).
  - exists (Decoded "image bytes"). split; reflexivity.
  - vm_compute. reflexivity.
  - constructor.
  - vm_compute. reflexivity.
  - constructor; [vm_compute; reflexivity|constructor].
  - vm_compute. reflexivity.
Defined.

Lemma non_mapping_element_fails_witness :
  extract_bill_data (answering number_page) a_request
  = failure ("'" ++ type_name (JInt 7) ++ "' object has no attribute 'get'").
Proof.
  apply (proj1 (non_mapping_element_fails (answering number_page) a_request
                  number_page [] (JInt 7) [] []
                  ltac:(exists (Decoded "image bytes"); split; reflexivity)
                  ltac:(vm_compute; reflexivity)
                  ltac:(constructor))).
  discriminate.
Defined.

Lemma text_or_mapping_as_pages_witness :
  extract_bill_data (answering text_pages) a_request
  = failure "'str' object has no attribute 'get'".
Proof.
  apply (proj2 (text_or_mapping_as_pages (answering text_pages) a_request
                  (list_to_map [("pagewise_line_items", JStr "n/a")])
                  (JStr "n/a")
                  ltac:(exists (Decoded "image bytes"); split; reflexivity)
                  ltac:(vm_compute; reflexivity))).
  left. exists "n/a". split; [reflexivity|discriminate].
Defined.

Lemma page_no_is_text_of_raw_value_witness :
  data (extract_bill_data (answering numbered_pages) a_request)
  = Some numbered_pages_data ∧
  ∃ raw_data pages,
    extraction_returns (answering numbered_pages) a_request raw_data ∧
    raw_pages raw_data = Ok pages ∧
    Forall2 (λ page pg, ∃ m,
               page = JObj m ∧
               page_no pg =
                 match m !! "page_no" with
                 | None => Text "1"
                 | Some (JStr s) => Text s
                 | Some JNull => Text "None"
                 | Some (JBool b) => Text (if b then "True" else "False")
                 | Some (JInt n) => Text (NilZero.string_of_int (Z.to_int n))
                 | Some v => StrOf v
                 end)
            pages (pagewise_line_items numbered_pages_data).
Proof.
  split; [vm_compute; reflexivity|].
  apply (page_no_is_text_of_raw_value (answering numbered_pages) a_request).
  vm_compute. reflexivity.
Defined.

Lemma reconcile_concatenated_pages_witness :
  reconcile (root_of [page_of_items "1" [bandage]; page_of_items "2" [gloves]])
  = Ok {| pagewise_line_items :=
            [{| page_no := Text "1"; bill_items := [bandage_item] |};
             {| page_no := Text "2"; bill_items := [gloves_item] |}];
          total_item_count := 1 + 1;
          reconciled_amount :=
            round2 (sum (item_amount <$> [bandage_item; gloves_item])) |}.
Proof.
  apply (reconcile_concatenated_pages
           (list_to_map [("pagewise_line_items",
                          JList [page_of_items "1" [bandage]])])
           (list_to_map [("pagewise_line_items",
                          JList [page_of_items "2" [gloves]])])
           (list_to_map [("pagewise_line_items",
                          JList [page_of_items "1" [bandage];
                                 page_of_items "2" [gloves]])])
           [page_of_items "1" [bandage]] [page_of_items "2" [gloves]]).
  - vm_compute. reflexivity.
  - vm_compute. reflexivity.
  - vm_compute. reflexivity.
  - exists (page_data "1" [bandage_item]), (page_data "2" [gloves_item]).
    split; [vm_compute; reflexivity|]. split; [vm_compute; reflexivity|].
    reflexivity.
Defined.

Lemma response_items_are_complete_witness :
  data (extract_bill_data (answering scenario_B) a_request)
  = Some (one_page_data bandage_item) ∧
  bandage_item ∈ items_of (one_page_data bandage_item) ∧
  ∃ raw_data m rate quantity,
    extraction_returns (answering scenario_B) a_request raw_data ∧
    has_item raw_data (JObj m) ∧ validated_item (JObj m) = Ok bandage_item ∧
    item_rate bandage_item = Some rate ∧
    item_quantity bandage_item = Some quantity.
Proof.
  split; [vm_compute; reflexivity|].
  split; [apply list_elem_of_here|].
  apply (response_items_are_complete (answering scenario_B) a_request
           (one_page_data bandage_item) bandage_item).
  - vm_compute. reflexivity.
  - apply list_elem_of_here.
Defined.

Lemma no_items_no_amount_witness :
  data (extract_bill_data (answering numbered_pages) a_request)
  = Some numbered_pages_data ∧
  (total_item_count numbered_pages_data = 0 ↔ items_of numbered_pages_data = []) ∧
  (items_of numbered_pages_data = [] →
   reconciled_amount numbered_pages_data = zero).
Proof.
  split; [vm_compute; reflexivity|].
  apply (no_items_no_amount (answering numbered_pages) a_request).
  vm_compute. reflexivity.
Defined.

Lemma nan_amount_makes_total_nan_witness :
  ∃ d',
    reconcile
      (with_pages
         ([] ++ with_items
                  ([bandage]
                   ++ with_amount (JStr "nan")
                        (list_to_map [("item_name", JStr "Mask");
                                      ("item_amount", JFloat 5)])
                   :: [])
                  (list_to_map
                     [("page_no", JStr "1");
                      ("bill_items",
                       JList [bandage;
                              dict [("item_name", JStr "Mask");
                                    ("item_amount", JFloat 5)]])])
          :: [])
         (list_to_map
            [("pagewise_line_items",
              JList [dict [("page_no", JStr "1");
                           ("bill_items",
                            JList [bandage;
                                   dict [("item_name", JStr "Mask");
                                         ("item_amount", JFloat 5)]])]])]))
    = Ok d' ∧
    total_item_count d'
    = total_item_count (page_data "1" [bandage_item; mask_item]) ∧
    reconciled_amount d' = nan.
Proof.
  destruct (nan_amount_makes_total_nan
              (list_to_map
                 [("pagewise_line_items",
                   JList [dict [("page_no", JStr "1");
                                ("bill_items",
                                 JList [bandage;
                                        dict [("item_name", JStr "Mask");
                                              ("item_amount", JFloat 5)]])]])])
              []
              (list_to_map
                 [("page_no", JStr "1");
                  ("bill_items",
                   JList [bandage;
                          dict [("item_name", JStr "Mask");
                                ("item_amount", JFloat 5)]])])
              [] [bandage]
              (list_to_map [("item_name", JStr "Mask");
                            ("item_amount", JFloat 5)])
              [] (JStr "nan") (page_data "1" [bandage_item; mask_item]))
    as (d' & Hd' & Hcount & Hnan & _).
  - vm_compute. reflexivity.
  - vm_compute. reflexivity.
  - vm_compute. reflexivity.
  - vm_compute. reflexivity.
  - exists d'. split; [exact Hd'|]. split; [exact Hcount|exact Hnan].
Defined.

Lemma single_item_amount_witness :
  data (extract_bill_data (answering scenario_B) a_request)
  = Some (one_page_data bandage_item) ∧
  reconciled_amount (one_page_data bandage_item)
  = round2 (item_amount bandage_item).
Proof.
  split; [vm_compute; reflexivity|].
  apply (proj1 (single_item_amount (answering scenario_B) a_request
                  (one_page_data bandage_item) bandage_item
                  ltac:(vm_compute; reflexivity) ltac:(reflexivity))).
  intros H. apply (f_equal Prim2SF) in H. vm_compute in H. discriminate.
Defined.

Lemma round2_is_within_half_a_cent_witness :
  ∃ cents,
    0 <= cents ∧ round2 0.125 = cents_to_float false cents ∧
    2 * Z.abs (cents * 2 ^ (- (-55)) - 100 * Z.pos 4503599627370496)
    <= 2 ^ (- (-55)).
Proof.
  apply (round2_is_within_half_a_cent 0.125 false 4503599627370496 (-55)).
  - vm_compute. reflexivity.
  - lia.
Defined.
